(** * ThalAI Guardian: donor-availability scoring service

    A shallow embedding of [thalai-ai-service/app.py] and the properties of
    its feature derivation, heuristic scorer and score arbitration.

    Modelling conventions.
    - Python [int] is [Z].
    - Python [float] (and numpy [float64]) is [pyfloat]: NaN, the two
      infinities, or the rational a finite float denotes. Arithmetic that
      produces a float (true division, a float product, [round]) rounds
      the exact result to binary64, to nearest with ties to even
      ([binary64]), and overflows as IEEE 754 does. A decimal literal of
      the source is kept as the decimal it spells.
    - A numpy array is written as the rows of numbers it is built from;
      what the scaler and the model do with it is left to them.
    - A Python [str] is a [string]; [str.lower] is the ASCII case mapping.
    - An exception is a value of [result]: [Raise e] propagates through
      [bind], and a [try]/[except] is [try_except].
    - The module globals [model] and [scaler] are read-only after
      [load_model]; they are passed as an explicit [Artifacts] record. An
      unpickled object is known by the outcome of its truth test and of
      the one method called on it.
    - A request is a record of the fields the handler reads, each typed as
      the data model types it; requests with a field of another type (or
      null where a value is expected) are outside the model. *)

From Stdlib Require Import ZArith QArith Qround Qpower Bool String Ascii List.
From Stdlib Require Import Lia Lqa.
From stdpp Require Import base option gmap strings.

Local Open Scope Z_scope.

(** ** Exceptions *)

Inductive exn : Type :=
  | AttributeError
  | TypeError
  | ValueError
  | ZeroDivisionError
  | OverflowError
  | IndexError
  | ArtifactError (msg : string).

Inductive result (A : Type) : Type :=
  | Ok (a : A)
  | Raise (e : exn).
Arguments Ok {A} a.
Arguments Raise {A} e.

Definition bind {A B} (m : result A) (k : A -> result B) : result B :=
  match m with
  | Ok a => k a
  | Raise e => Raise e
  end.

(** [try: body except: handler] with a bare [except]. *)
Definition try_except {A} (body : result A) (handler : result A) : result A :=
  match body with
  | Ok a => Ok a
  | Raise _ => handler
  end.

Declare Scope py_scope.
Delimit Scope py_scope with py.
Notation "'let*' x ':=' m 'in' k" := (bind m (fun x => k))
  (at level 10, x name, m at level 100, k at level 200) : py_scope.
Local Open Scope py_scope.

(** ** HeuristicScorer: [calculate_fallback_score] *)

(** The running [score] before the final clamp (the body of
    [calculate_fallback_score] up to its [return]). *)
Definition fallback_points (age donation_frequency days_since : Z) : Z :=
  let score := 50 in
  let score :=
    if (25 <=? age) && (age <=? 45) then score + 15
    else if ((18 <=? age) && (age <? 25)) || ((45 <? age) && (age <=? 60))
    then score + 10
    else score + 5 in
  let score :=
    if donation_frequency >=? 10 then score + 20
    else if donation_frequency >=? 5 then score + 15
    else if donation_frequency >=? 2 then score + 10
    else if donation_frequency >=? 1 then score + 5
    else score in
  let score :=
    if (56 <=? days_since) && (days_since <=? 90) then score + 15
    else if (30 <=? days_since) && (days_since <? 56) then score + 10
    else if (90 <? days_since) && (days_since <=? 180) then score + 5
    else if days_since >? 180 then score - 5
    else score in
  score.

Definition calculate_fallback_score (age donation_frequency days_since : Z) : Z :=
  Z.max 0 (Z.min 100 (fallback_points age donation_frequency days_since)).

(** *** The scoring table of the specification *)

Module Table.

(** One row of the table: an inclusive range (an absent bound is open)
    and the points it adds. *)
Record band : Type := Band { lo : option Z; hi : option Z; points : Z }.

Definition in_band (x : Z) (b : band) : bool :=
  match lo b with Some l => l <=? x | None => true end
  && match hi b with Some h => x <=? h | None => true end.

(** First matching row wins; [otherwise] when no row matches. *)
Fixpoint first_match (x : Z) (rows : list band) (otherwise : Z) : Z :=
  match rows with
  | [] => otherwise
  | b :: rows' => if in_band x b then points b else first_match x rows' otherwise
  end.

Definition matching (x : Z) (rows : list band) : list band :=
  List.filter (in_band x) rows.

Definition age_rows : list band :=
  [ Band (Some 25) (Some 45) 15;
    Band (Some 18) (Some 24) 10;
    Band (Some 46) (Some 60) 10 ].
Definition age_otherwise : Z := 5.

Definition frequency_rows : list band :=
  [ Band (Some 10) None 20;
    Band (Some 5) (Some 9) 15;
    Band (Some 2) (Some 4) 10;
    Band (Some 1) (Some 1) 5;
    Band (Some 0) (Some 0) 0 ].

Definition recency_rows : list band :=
  [ Band (Some 56) (Some 90) 15;
    Band (Some 30) (Some 55) 10;
    Band (Some 91) (Some 180) 5;
    Band (Some 181) None (-5);
    Band None (Some 29) 0 ].

Definition age_adjustment (age : Z) : Z := first_match age age_rows age_otherwise.
(** A frequency below every listed band adds nothing. *)
Definition frequency_adjustment (f : Z) : Z := first_match f frequency_rows 0.
Definition recency_adjustment (d : Z) : Z := first_match d recency_rows 0.

Definition score (age donation_frequency days_since : Z) : Z :=
  Z.max 0 (Z.min 100 (50 + age_adjustment age
                         + frequency_adjustment donation_frequency
                         + recency_adjustment days_since)).

End Table.

(** ** Python values *)

(** A float: NaN, an infinity, or the rational a finite float denotes. *)
Inductive pyfloat : Type :=
  | FNaN
  | FInf (negative : bool)
  | FFin (q : Q).

(** A naive or aware [datetime]: [wall] is its wall-clock reading in
    microseconds since 0001-01-01T00:00:00, [tzinfo] its UTC offset in
    microseconds when it is aware. *)
Record datetime : Type := Datetime { wall : Z; tzinfo : option Z }.

(** The values a request field can hold (JSON values), and the native
    [date] and [datetime] objects a direct caller can pass. *)
#[warnings="-register-all"]
Inductive pyval : Type :=
  | PyNone
  | PyBool (b : bool)
  | PyInt (z : Z)
  | PyFloat (x : pyfloat)
  | PyStr (s : string)
  | PyList (items : list pyval)
  | PyDict (items : list (string * pyval))
  | PyDate (ordinal : Z)
  | PyDatetime (d : datetime).

(** Truth value, as [if not v] tests it. *)
Definition truthy (v : pyval) : bool :=
  match v with
  | PyNone => false
  | PyBool b => b
  | PyInt z => negb (z =? 0)
  | PyFloat (FFin q) => negb (Qeq_bool q 0)
  | PyFloat _ => true
  | PyStr s => negb (String.eqb s "")
  | PyList items => match items with [] => false | _ :: _ => true end
  | PyDict items => match items with [] => false | _ :: _ => true end
  | PyDate _ => true
  | PyDatetime _ => true
  end.

(** A number that is an [int] or a [float]: the score is an [int] on the
    heuristic path and at the clamp bounds, a [float] otherwise. *)
Inductive pynum : Type :=
  | PInt (z : Z)
  | PFlt (x : pyfloat).

Definition to_float (n : pynum) : pyfloat :=
  match n with
  | PInt z => FFin (inject_Z z)
  | PFlt x => x
  end.

(** [x < y] on floats; every comparison with NaN is false. *)
Definition float_lt (x y : pyfloat) : bool :=
  match x, y with
  | FNaN, _ | _, FNaN => false
  | FInf true, FInf true => false
  | FInf true, _ => true
  | _, FInf true => false
  | FInf false, _ => false
  | _, FInf false => true
  | FFin p, FFin q => negb (Qle_bool q p)
  end.

Definition num_lt (a b : pynum) : bool := float_lt (to_float a) (to_float b).

(** [min(a, b)] keeps [a] unless [b < a]; [max(a, b)] keeps [a] unless
    [b > a]. *)
Definition py_min (a b : pynum) : pynum := if num_lt b a then b else a.
Definition py_max (a b : pynum) : pynum := if num_lt a b then b else a.

(** Round half to even, to an integer. *)
Definition rint (q : Q) : Z :=
  let f := Qfloor q in
  let r := (q - inject_Z f)%Q in
  if Qle_bool r (1 # 2)
  then if Qeq_bool r (1 # 2) then (if Z.even f then f else f + 1) else f
  else f + 1.

(** *** Rounding to binary64 *)

Definition pow2 (e : Z) : Q := Qpower 2 e.

(** The integer part of the binary logarithm of a positive rational. *)
Definition ilog2 (a : Q) : Z :=
  let k := Z.log2 (Qnum a) - Z.log2 (Zpos (Qden a)) in
  if Qle_bool (pow2 k) a then k else k - 1.

(** A positive rational rounded to the nearest multiple of the spacing of
    binary64 at its magnitude (53 significant bits, the least exponent
    that of the subnormals), ties to even; [None] when the result is
    2^1024 or more. *)
Definition binary64_pos (a : Q) : option Q :=
  let e := Z.max (ilog2 a - 52) (-1074) in
  let r := (inject_Z (rint (a / pow2 e)) * pow2 e)%Q in
  if Qle_bool (pow2 1024) r then None else Some r.

(** The binary64 value nearest to a rational. *)
Definition binary64 (q : Q) : pyfloat :=
  match Qcompare q 0 with
  | Eq => FFin 0
  | Gt => match binary64_pos q with
          | Some r => FFin r
          | None => FInf false
          end
  | Lt => match binary64_pos (- q) with
          | Some r => FFin (- r)
          | None => FInf true
          end
  end.

(** What [binary64] is to compute: [r] is a binary64 number nearest to
    the rational [q]. It is [m * 2^e] with [m] of at most 53 bits (of
    exactly 53 unless [e] is -1074, the exponent of the subnormals) and
    below 2^1024 in size; [2^e] is the spacing of the floats at the
    magnitude of [q]; and [r] is at most half that spacing from [q]. *)
Definition nearest_float (q r : Q) : Prop :=
  exists m e : Z,
    (r == inject_Z m * pow2 e)%Q /\
    - 2 ^ 53 <= m <= 2 ^ 53 /\ -1074 <= e <= 971 /\
    (-1074 < e -> 2 ^ 52 <= Z.abs m) /\
    (-1074 < e -> (pow2 (e + 52) <= q)%Q \/ (q <= - pow2 (e + 52))%Q) /\
    (- pow2 (e + 53) < q < pow2 (e + 53))%Q /\
    (r - pow2 e / 2 <= q <= r + pow2 e / 2)%Q /\
    (- pow2 1024 < r < pow2 1024)%Q.

(** [x * k] for a float [x] and a positive [int] [k]. *)
Definition float_mul_int (x : pyfloat) (k : Z) : pyfloat :=
  match x with
  | FFin q => binary64 (q * inject_Z k)
  | other => other
  end.

(** [round(x, 2)] of a numpy float: [x * 100], rounded half to even to an
    integer, divided by 100. *)
Definition float_round2 (x : pyfloat) : pyfloat :=
  match float_mul_int x 100 with
  | FFin a => binary64 (inject_Z (rint a) / 100)
  | other => other
  end.

(** [round(n, 2)]: an [int] is returned as it is. *)
Definition round2 (n : pynum) : pynum :=
  match n with
  | PInt z => PInt z
  | PFlt x => PFlt (float_round2 x)
  end.

(** [a / b] on [int]s (true division): the quotient rounded to binary64,
    [OverflowError] when it is too large for a float. *)
Definition truediv (a b : Z) : result Q :=
  if b =? 0 then Raise ZeroDivisionError
  else match binary64 (inject_Z a / inject_Z b) with
       | FFin q => Ok q
       | _ => Raise OverflowError
       end.

(** ** Strings *)

(** [s.replace(c, new)] for a one-character [c]. *)
Fixpoint replace_char (c : ascii) (new : string) (s : string) : string :=
  match s with
  | EmptyString => EmptyString
  | String a s' =>
      if Ascii.eqb a c then new ++ replace_char c new s'
      else String a (replace_char c new s')
  end.

Definition lower_ascii (c : ascii) : ascii :=
  let n := N_of_ascii c in
  if ((65 <=? n) && (n <=? 90))%N then ascii_of_N (n + 32) else c.

(** [s.lower()]. *)
Fixpoint lower (s : string) : string :=
  match s with
  | EmptyString => EmptyString
  | String a s' => String (lower_ascii a) (lower s')
  end.

(** ** The request, the artifacts and the response *)

(** The keys read from the request body and from [donor_data]; a field is
    [None] when its key is absent, and typed as the data model types it:
    an [age] and a [donationFrequency] that are integers, a [region] that
    is a string, [healthFlags] that are a list. [lastDonationDate] and
    [donorId] hold any value and are read with [.get(key)], so an absent
    key reads as [PyNone]. *)
Record DonorData : Type := {
  age : option Z;
  donationFrequency : option Z;
  lastDonationDate : pyval;
  region : option string;
  healthFlags : option (list pyval);
  donorId : pyval
}.

(** [d.get(key, default)]. *)
Definition get {A} (field : option A) (dflt : A) : A := default dflt field.

(** A 2-D numpy array, written as the rows of numbers it is built from.
    [np.array] stores them in one dtype, which the numbers determine:
    float64, every [int] converted to a float, when the ints fit a C
    integer; otherwise object, the numbers kept as they are. It raises
    for neither. *)
Abbreviation ndarray := (list (list pynum)).

Definition np_array (rows : list (list pynum)) : ndarray := rows.

(** The two unpickled objects, opaque but for the truth test [if obj:]
    and the one method called on each. [predict] returns a numpy array
    of float64, as the regressors of scikit-learn do, so that
    [prediction * 100] and [round(score, 2)] are numpy's. *)
Record Scaler : Type := {
  scaler_truth : result bool;
  transform : ndarray -> result ndarray
}.
Record Model : Type := {
  model_truth : result bool;
  predict_ : ndarray -> result (list pyfloat)
}.

(** The globals [model] and [scaler] after [load_model]. *)
Record Artifacts : Type := { model : option Model; scaler : option Scaler }.

(** [a[0]]. *)
Definition index0 {A} (a : list A) : result A :=
  match a with
  | x :: _ => Ok x
  | [] => Raise IndexError
  end.

Record Prediction : Type := {
  success : bool;
  resp_donorId : pyval;
  availabilityScore : pynum;
  confidence : Q;
  model_used : string
}.

Inductive response : Type :=
  | Http200 (body : Prediction)
  | Http400 (error : string)
  | Http500 (error : exn).

(** What [request.json] returns when it does not raise: a value whose
    truth test is false (null, false, 0, an empty string, list or
    object), a value that is true but is not an object, or an object
    that is not empty. *)
Inductive json_body : Type :=
  | JsonFalsy
  | JsonNotObject
  | JsonObject (data : DonorData).

(** [region_map] of [predict_availability]. *)
Definition region_map : gmap string Q :=
  {[ "north" := 0.2%Q; "south" := 0.3%Q; "east" := 0.25%Q;
     "west" := 0.25%Q; "central" := 0.3%Q; "unknown" := 0.2%Q ]}.

(** The fixed table of the specification. *)
Definition region_table (key : string) : Q :=
  if String.eqb key "north" then 0.20
  else if String.eqb key "south" then 0.30
  else if String.eqb key "east" then 0.25
  else if String.eqb key "west" then 0.25
  else if String.eqb key "central" then 0.30
  else if String.eqb key "unknown" then 0.20
  else 0.20.

(** The vocabulary of the table. *)
Definition known_regions : list string :=
  ["north"; "south"; "east"; "west"; "central"; "unknown"]%string.

Section Service.

(** [datetime.now()], as the wall-clock reading of the call, and
    [datetime.fromisoformat], which raises on a string it cannot parse. *)
Variable now : Z.
Variable fromisoformat : string -> result datetime.

(** The loaded artifacts. *)
Variable st : Artifacts.

Definition datetime_now : datetime := Datetime now None.

(** [v.replace(tzinfo=None)]: only a [datetime] has it; a [date] has
    [replace] but no [tzinfo] argument. *)
Definition replace_tzinfo_none (v : pyval) : result datetime :=
  match v with
  | PyDatetime d => Ok (Datetime (wall d) None)
  | PyDate _ => Raise TypeError
  | _ => Raise AttributeError
  end.

(** [a - b] on datetimes, a timedelta in microseconds; naive and aware
    operands do not mix. *)
Definition datetime_sub (a b : datetime) : result Z :=
  match tzinfo a, tzinfo b with
  | None, None => Ok (wall a - wall b)
  | Some oa, Some ob => Ok ((wall a - oa) - (wall b - ob))
  | _, _ => Raise TypeError
  end.

(** [td.days]: whole days, rounded down. *)
Definition days (td : Z) : Z := td / 86400000000.

(** *** RecencyCalculator *)
Definition calculate_days_since_last_donation (last_donation_date : pyval)
  : result Z :=
  if negb (truthy last_donation_date) then Ok 365
  else
    try_except
      (let* last_date :=
         match last_donation_date with
         | PyStr s =>
             let* d := fromisoformat (replace_char "Z" "+00:00" s) in
             Ok (PyDatetime d)
         | other => Ok other
         end in
       let* naive := replace_tzinfo_none last_date in
       let* delta := datetime_sub datetime_now naive in
       Ok (Z.max 0 (days delta)))
      (Ok 365).

(** *** FeatureExtractor: the [features] array of [predict_availability] *)
Definition region_factor_of (region : string) : Q :=
  default 0.2%Q (region_map !! lower region).

Definition health_flags_count_of (health_flags : list pyval) : Z :=
  if truthy (PyList health_flags) then Z.of_nat (length health_flags) else 0.

Definition features_of (age donation_frequency days_since : Z)
    (region_factor : Q) (health_flags_count : Z) : result ndarray :=
  let* donation_rate := truediv donation_frequency (Z.max (age - 18) 1) in
  let* recency_score := truediv (Z.max 0 (90 - days_since)) 90 in
  Ok (np_array [[ PInt age;
                  PInt donation_frequency;
                  PInt days_since;
                  PFlt (FFin region_factor);
                  PInt health_flags_count;
                  PFlt (FFin donation_rate);
                  PFlt (FFin recency_score) ]]).

(** *** ModelScorer and ScoreArbiter: [predict_availability] *)

(** The [try] body: [model.predict(features)[0]], scaled and clamped. *)
Definition model_score (m : Model) (features : ndarray) : result pynum :=
  let* predictions := predict_ m features in
  let* prediction := index0 predictions in
  Ok (py_max (PInt 0) (py_min (PInt 100) (PFlt (float_mul_int prediction 100)))).

(** The scaling and the choice of the scorer, from the feature array. *)
Definition score_of_features (features : ndarray)
    (age donation_frequency days_since : Z) : result pynum :=
  let* features :=
    match scaler st with
    | Some s =>
        let* scaler_is_true := scaler_truth s in
        if scaler_is_true then transform s features else Ok features
    | None => Ok features
    end in
  match model st with
  | Some m =>
      let* model_is_true := model_truth m in
      if model_is_true
      then
        try_except
          (model_score m features)
          (Ok (PInt (calculate_fallback_score age donation_frequency days_since)))
      else
        Ok (PInt (calculate_fallback_score age donation_frequency days_since))
  | None =>
      Ok (PInt (calculate_fallback_score age donation_frequency days_since))
  end.

(** The score before [round(score, 2)]. *)
Definition chosen_score (donor_data : DonorData) : result pynum :=
  let age := get (age donor_data) 30 in
  let donation_frequency := get (donationFrequency donor_data) 0 in
  let last_donation_date := lastDonationDate donor_data in
  let region := get (region donor_data) "unknown" in
  let health_flags := get (healthFlags donor_data) [] in
  let* days_since := calculate_days_since_last_donation last_donation_date in
  let region_factor := region_factor_of region in
  let health_flags_count := health_flags_count_of health_flags in
  let* features :=
    features_of age donation_frequency days_since region_factor
      health_flags_count in
  score_of_features features age donation_frequency days_since.

Definition predict_availability (donor_data : DonorData) : result pynum :=
  let* score := chosen_score donor_data in
  Ok (round2 score).

(** *** The [/predict-availability] handler. [request_json] is the
    outcome of [request.json], which raises when the request has no JSON
    body; the whole handler is one [try] whose [except] answers 500. *)
Definition predict (request_json : result json_body) : response :=
  match request_json with
  | Raise e => Http500 e
  | Ok JsonFalsy => Http400 "No data provided"
  | Ok JsonNotObject => Http500 AttributeError
  | Ok (JsonObject data) =>
      let donor_data :=
        {| age := Some (get (age data) 30);
           donationFrequency := Some (get (donationFrequency data) 0);
           lastDonationDate := lastDonationDate data;
           region := Some (get (region data) "unknown");
           healthFlags := Some (get (healthFlags data) []);
           donorId := PyNone |} in
      let model_is_true :=
        match model st with
        | Some m => model_truth m
        | None => Ok false
        end in
      match predict_availability donor_data, model_is_true with
      | Ok availability_score, Ok model_is_true =>
          Http200
            {| success := true;
               resp_donorId := donorId data;
               availabilityScore := availability_score;
               confidence := if model_is_true then 0.85 else 0.70;
               model_used := if model_is_true then "trained" else "fallback" |}
      | Raise e, _ => Http500 e
      | Ok _, Raise e => Http500 e
      end
  end.

End Service.

(** ** The derived features of the specification *)

Module FeatureSpec.

Definition donationRate (age donationFrequency : Z) : Q :=
  inject_Z donationFrequency / inject_Z (Z.max (age - 18) 1).

Definition recencyScore (daysSince : Z) : Q :=
  inject_Z (Z.max 0 (90 - daysSince)) / 90.

End FeatureSpec.

(** ** Predicates on scores and artifacts, and sample inputs *)

(** The one row of the feature array, given the two quotients. *)
Definition feature_row (d : DonorData) (days_since : Z)
    (donation_rate recency_score : Q) : list pynum :=
  [ PInt (get (age d) 30);
    PInt (get (donationFrequency d) 0);
    PInt days_since;
    PFlt (FFin (region_factor_of (get (region d) "unknown"%string)));
    PInt (Z.of_nat (length (get (healthFlags d) [])));
    PFlt (FFin donation_rate);
    PFlt (FFin recency_score) ].

(** The donation rate of a record: [Raise OverflowError] when the
    quotient is too large for a float. *)
Definition donation_rate_of (d : DonorData) : result Q :=
  truediv (get (donationFrequency d) 0) (Z.max (get (age d) 30 - 18) 1).

(** A finite number between 0 and 100. *)
Definition in_0_100 (n : pynum) : Prop :=
  match to_float n with
  | FFin q => (0 <= q <= 100)%Q
  | _ => False
  end.

(** [s] is [c] rounded to two decimals, as [round(c, 2)] does it: [c]
    itself when it is an [int]; for a float, a float nearest to [k / 100],
    where [k] is an integer nearest to [a], a float nearest to the
    product of [c] and 100. *)
Definition rounded_to_hundredths (c s : pynum) : Prop :=
  match c with
  | PInt z => s = PInt z
  | PFlt (FFin q) =>
      exists (a : Q) (k : Z) (r : Q),
        nearest_float (q * 100) a /\
        (inject_Z k - (1 # 2) <= a <= inject_Z k + (1 # 2))%Q /\
        0 <= k <= 10000 /\
        nearest_float (inject_Z k / 100) r /\
        s = PFlt (FFin r)
  | PFlt _ => False
  end.

(** The loaded scaler, if any, does not raise: its truth test returns,
    and when it is true [transform] returns for every array. *)
Definition scaler_total (st : Artifacts) : Prop :=
  match scaler st with
  | Some s =>
      scaler_truth s = Ok false \/
      (scaler_truth s = Ok true /\
       forall features, exists scaled, transform s features = Ok scaled)
  | None => True
  end.

(** The truth test of the loaded model, if any, returns. *)
Definition model_truth_total (st : Artifacts) : Prop :=
  match model st with
  | Some m => exists b, model_truth m = Ok b
  | None => True
  end.

Definition day_us : Z := 86400000000.

(** [v] is a timestamp between [k] and [k + 1] whole days before [now]:
    a native datetime, or a string that [fromisoformat] parses. *)
Definition days_ago (now : Z) (fromisoformat : string -> result datetime)
    (k : Z) (v : pyval) : Prop :=
  let elapsed d := k * day_us <= now - wall d < (k + 1) * day_us in
  match v with
  | PyDatetime d => elapsed d
  | PyStr s =>
      s <> ""%string /\
      exists d, fromisoformat (replace_char "Z" "+00:00" s) = Ok d /\ elapsed d
  | _ => False
  end.

Module Sample.

(** 2024-03-16T12:00:00 and 2024-01-01T00:00:00, in microseconds since
    0001-01-01T00:00:00 (day ordinals 738961 and 738886, less one). *)
Definition now : Z := 738960 * day_us + 12 * 3600000000.
Definition new_year : datetime := Datetime (738885 * day_us) (Some 0).

(** A parser that knows one timestamp. *)
Definition fromisoformat (s : string) : result datetime :=
  if String.eqb s "2024-01-01T00:00:00+00:00" then Ok new_year
  else Raise ValueError.

(** A model whose [predict] raises, as a regressor fitted on another
    number of features does, and a scaler whose [transform] raises. *)
Definition failing_model : Model :=
  {| model_truth := Ok true; predict_ := fun _ => Raise ValueError |}.
Definition failing_scaler : Scaler :=
  {| scaler_truth := Ok true; transform := fun _ => Raise ValueError |}.

(** A model that always predicts the float 0.87654, and the identity
    scaler. *)
Definition constant_model : Model :=
  {| model_truth := Ok true; predict_ := fun _ => Ok [binary64 0.87654] |}.
Definition identity_scaler : Scaler :=
  {| scaler_truth := Ok true; transform := fun features => Ok features |}.

Definition donor (last : pyval) : DonorData :=
  {| age := Some 30;
     donationFrequency := Some 5;
     lastDonationDate := last;
     region := Some "south";
     healthFlags := Some [];
     donorId := PyStr "d-1" |}.

End Sample.

(** ** Start-up and health: [load_model], [health] *)

(** What [load_model] finds at a path: [None] when the path does not
    exist, otherwise the outcome of opening and unpickling the file. *)
Record Disk : Type := {
  model_pkl : option (result Model);
  scaler_pkl : option (result Scaler)
}.

(** The lines [load_model] prints. *)
Inductive log_line : Type :=
  | ModelNotFound
  | ErrorLoading (e : exn).

(** [load_model]: the new values of the globals [model] and [scaler], and
    what was printed. The whole body is one [try]; its [except] resets
    both globals. *)
Definition load_model (disk : Disk) : Artifacts * list log_line :=
  let failed (e : exn) (printed : list log_line) :=
    ({| model := None; scaler := None |}, printed ++ [ErrorLoading e]) in
  let load_scaler (loaded : option Model) (printed : list log_line) :=
    match scaler_pkl disk with
    | Some (Ok s) => ({| model := loaded; scaler := Some s |}, printed)
    | Some (Raise e) => failed e printed
    | None => ({| model := loaded; scaler := None |}, printed)
    end in
  match model_pkl disk with
  | Some (Ok m) => load_scaler (Some m) []
  | Some (Raise e) => failed e []
  | None => load_scaler None [ModelNotFound]
  end.

Record Health : Type := {
  status : string;
  model_loaded : bool;
  service : string
}.

(** The [/health] handler. *)
Definition health (st : Artifacts) : Health :=
  {| status := "healthy";
     model_loaded := match model st with Some _ => true | None => false end;
     service := "thalai-ai-prediction" |}.

(** [c in s]. *)
Definition has_char (c : ascii) (s : string) : Prop :=
  In c (list_ascii_of_string s).

(** ** [train_model.py]: one sample of [generate_synthetic_data] *)

Module Training.

(** The random values one iteration of the loop draws. *)
Record Draw : Type := {
  age : Z;
  donation_frequency : Z;
  days_ago : Z;
  region : string;
  health_flags_count : Z;
  noise : Q
}.

(** The ranges of [np.random.randint] and the list of [random.choice]. *)
Definition in_range (dr : Draw) : Prop :=
  18 <= age dr < 65 /\ 0 <= donation_frequency dr < 20 /\
  0 <= days_ago dr < 365 /\
  In (region dr) ["north"; "south"; "east"; "west"; "central"; "unknown"]%string /\
  0 <= health_flags_count dr < 3.

Definition region_scores : gmap string Z :=
  {[ "north" := 5; "south" := 8; "east" := 6;
     "west" := 7; "central" := 8; "unknown" := 3 ]}.

Definition region_map : gmap string Q :=
  {[ "north" := 0.2%Q; "south" := 0.3%Q; "east" := 0.25%Q;
     "west" := 0.25%Q; "central" := 0.3%Q; "unknown" := 0.2%Q ]}.

(** The target [score] of a sample before it is clamped. *)
Definition target_points (dr : Draw) : pyfloat :=
  let age := age dr in
  let donation_frequency := donation_frequency dr in
  let days_ago := days_ago dr in
  let score := 50 in
  let score :=
    if (25 <=? age) && (age <=? 45) then score + 15
    else if ((18 <=? age) && (age <? 25)) || ((45 <? age) && (age <=? 60))
    then score + 10
    else score in
  let score :=
    if donation_frequency >=? 10 then score + 20
    else if donation_frequency >=? 5 then score + 15
    else if donation_frequency >=? 2 then score + 10
    else score in
  let score :=
    if (56 <=? days_ago) && (days_ago <=? 90) then score + 15
    else if (30 <=? days_ago) && (days_ago <? 56) then score + 10
    else if (90 <? days_ago) && (days_ago <=? 180) then score + 5
    else score in
  let score := score + default 3 (region_scores !! region dr) in
  let score := score - health_flags_count dr * 5 in
  binary64 (inject_Z score + noise dr).

(** [x / k] for a number [x] and a positive [int] [k]. *)
Definition div_int (x : pynum) (k : Z) : pyfloat :=
  match to_float x with
  | FFin q => binary64 (q / inject_Z k)
  | other => other
  end.

Definition of_result {A} (r : result A) : option A :=
  match r with
  | Ok a => Some a
  | Raise _ => None
  end.

(** The dict appended to [data], keys in insertion order; [None] when
    the iteration raises (a [KeyError] of [region_map[region]], or a
    division that raises). *)
Definition sample (dr : Draw) : option (list (string * pynum)) :=
  let score :=
    py_max (PInt 0) (py_min (PInt 100) (PFlt (target_points dr))) in
  region_factor ← region_map !! region dr;
  donation_rate ← of_result (truediv (donation_frequency dr)
                                       (Z.max (age dr - 18) 1));
  recency_score ← of_result (truediv (Z.max 0 (90 - days_ago dr)) 90);
  Some [ ("age", PInt (age dr));
         ("donation_frequency", PInt (donation_frequency dr));
         ("days_since_last_donation", PInt (days_ago dr));
         ("region_factor", PFlt (FFin region_factor));
         ("health_flags_count", PInt (health_flags_count dr));
         ("donation_rate", PFlt (FFin donation_rate));
         ("recency_score", PFlt (FFin recency_score));
         ("availability_score", PFlt (div_int score 100)) ]%string.

(** [generate_synthetic_data], for the draws of its [n_samples]
    iterations. *)
Definition generate_synthetic_data (draws : list Draw)
  : option (list (list (string * pynum))) :=
  mapM sample draws.

(** [feature_cols] of [train_model]. *)
Definition feature_cols : list string :=
  [ "age"; "donation_frequency"; "days_since_last_donation";
    "region_factor"; "health_flags_count"; "donation_rate";
    "recency_score" ]%string.

(** [row[key]]. *)
Fixpoint lookup_key (key : string) (row : list (string * pynum)) : option pynum :=
  match row with
  | [] => None
  | (k, v) :: row' => if String.eqb k key then Some v else lookup_key key row'
  end.

(** One row of [df[cols].values]: the named columns, in the order of
    [cols]. *)
Definition values (cols : list string) (row : list (string * pynum))
  : option (list pynum) :=
  mapM (fun col => lookup_key col row) cols.

End Training.

(** ** More sample inputs *)

Module Fixture.

(** A model whose [predict] returns an empty array. *)
Definition empty_model : Model :=
  {| model_truth := Ok true; predict_ := fun _ => Ok [] |}.

(** A model that predicts the given float. *)
Definition model_of (x : pyfloat) : Model :=
  {| model_truth := Ok true; predict_ := fun _ => Ok [x] |}.

(** A loaded object whose truth test is false, as an ensemble without
    estimators is, and one whose truth test raises, as an ensemble that
    was never fitted does. *)
Definition falsy_model : Model :=
  {| model_truth := Ok false; predict_ := fun _ => Ok [binary64 0.5] |}.
Definition unfitted_model : Model :=
  {| model_truth := Raise AttributeError;
     predict_ := fun _ => Raise AttributeError |}.

(** Both pickles on disk, the scaler corrupt. *)
Definition corrupt_scaler_disk : Disk :=
  {| model_pkl := Some (Ok Sample.constant_model);
     scaler_pkl := Some (Raise ValueError) |}.

Definition empty_disk : Disk := {| model_pkl := None; scaler_pkl := None |}.

Definition draw : Training.Draw :=
  {| Training.age := 30; Training.donation_frequency := 5;
     Training.days_ago := 75; Training.region := "south";
     Training.health_flags_count := 1; Training.noise := 0.5 |}.

End Fixture.

(** ** Theorems *)

Ltac band_cases :=
  rewrite ?Z.geb_leb, ?Z.gtb_ltb;
  repeat (match goal with
          | |- context [?a <=? ?b] => destruct (Z.leb_spec a b)
          | |- context [?a <? ?b] => destruct (Z.ltb_spec a b)
          end; cbn [andb orb length]; try lia).

(** Each of the three [if]/[elif] chains adds the points of its table. *)
Lemma age_chain (score age : Z) :
  (if (25 <=? age) && (age <=? 45) then score + 15
   else if ((18 <=? age) && (age <? 25)) || ((45 <? age) && (age <=? 60))
   then score + 10
   else score + 5) = score + Table.age_adjustment age.
Proof.
  unfold Table.age_adjustment, Table.age_rows, Table.age_otherwise,
    Table.first_match, Table.in_band; simpl.
  band_cases.
Qed.

Lemma frequency_chain (score f : Z) :
  (if f >=? 10 then score + 20
   else if f >=? 5 then score + 15
   else if f >=? 2 then score + 10
   else if f >=? 1 then score + 5
   else score) = score + Table.frequency_adjustment f.
Proof.
  unfold Table.frequency_adjustment, Table.frequency_rows, Table.first_match,
    Table.in_band; simpl.
  band_cases.
Qed.

Lemma recency_chain (score d : Z) :
  (if (56 <=? d) && (d <=? 90) then score + 15
   else if (30 <=? d) && (d <? 56) then score + 10
   else if (90 <? d) && (d <=? 180) then score + 5
   else if d >? 180 then score - 5
   else score) = score + Table.recency_adjustment d.
Proof.
  unfold Table.recency_adjustment, Table.recency_rows, Table.first_match,
    Table.in_band; simpl.
  band_cases.
Qed.

Lemma fallback_points_table age f d :
  fallback_points age f d =
  50 + Table.age_adjustment age + Table.frequency_adjustment f
     + Table.recency_adjustment d.
Proof.
  unfold fallback_points; cbv zeta.
  now rewrite recency_chain, frequency_chain, age_chain.
Qed.

Lemma fallback_score_table age f d :
  calculate_fallback_score age f d = Table.score age f d.
Proof.
  unfold calculate_fallback_score, Table.score.
  now rewrite fallback_points_table.
Qed.

Lemma age_adjustment_range age :
  5 <= Table.age_adjustment age <= 15.
Proof.
  unfold Table.age_adjustment, Table.age_rows, Table.age_otherwise,
    Table.first_match, Table.in_band; simpl.
  band_cases.
Qed.

Lemma frequency_adjustment_range f :
  0 <= Table.frequency_adjustment f <= 20.
Proof.
  unfold Table.frequency_adjustment, Table.frequency_rows, Table.first_match,
    Table.in_band; simpl.
  band_cases.
Qed.

Lemma recency_adjustment_range d :
  -5 <= Table.recency_adjustment d <= 15.
Proof.
  unfold Table.recency_adjustment, Table.recency_rows, Table.first_match,
    Table.in_band; simpl.
  band_cases.
Qed.

Lemma fallback_points_range age f d :
  50 <= fallback_points age f d <= 100.
Proof.
  rewrite fallback_points_table.
  pose proof (age_adjustment_range age).
  pose proof (frequency_adjustment_range f).
  pose proof (recency_adjustment_range d).
  lia.
Qed.

(** The listed ranges of one factor never overlap. *)
Lemma age_rows_exclusive age :
  (length (Table.matching age Table.age_rows) <= 1)%nat.
Proof.
  unfold Table.matching, Table.age_rows, Table.in_band; simpl.
  band_cases.
Qed.

Lemma frequency_rows_exclusive f :
  (length (Table.matching f Table.frequency_rows) <= 1)%nat.
Proof.
  unfold Table.matching, Table.frequency_rows, Table.in_band; simpl.
  band_cases.
Qed.

Lemma frequency_rows_cover f :
  0 <= f -> length (Table.matching f Table.frequency_rows) = 1%nat.
Proof.
  intros Hf.
  unfold Table.matching, Table.frequency_rows, Table.in_band; simpl.
  band_cases.
Qed.

Lemma recency_rows_cover d :
  length (Table.matching d Table.recency_rows) = 1%nat.
Proof.
  unfold Table.matching, Table.recency_rows, Table.in_band; simpl.
  band_cases.
Qed.

(** C4. For all integers [age], [donation_frequency] and [days_since] the
    heuristic score is 50 plus the points of the age band (25-45: 15;
    18-24 or 46-60: 10; otherwise 5), of the frequency band (10 and more:
    20; 5-9: 15; 2-4: 10; 1: 5; 0: 0) and of the recency band (56-90: 15;
    30-55: 10; 91-180: 5; above 180: -5; below 30: 0), clamped to [0,100].
    The ranges of a factor are mutually exclusive, so one band applies: at
    most one listed age range (else "otherwise"), exactly one frequency
    range for a frequency that is not negative, exactly one recency range.
    The literal boundaries hold, both in the table and in the score. *)
Theorem C4_fallback_score_is_banded_sum :
  (forall age f d : Z,
      calculate_fallback_score age f d =
      Z.max 0 (Z.min 100 (50 + Table.age_adjustment age
                             + Table.frequency_adjustment f
                             + Table.recency_adjustment d))) /\
  (forall age : Z, (length (Table.matching age Table.age_rows) <= 1)%nat) /\
  (forall f : Z, (length (Table.matching f Table.frequency_rows) <= 1)%nat) /\
  (forall f : Z,
      0 <= f -> length (Table.matching f Table.frequency_rows) = 1%nat) /\
  (forall d : Z, length (Table.matching d Table.recency_rows) = 1%nat) /\
  (Table.age_adjustment 25 = 15 /\ Table.age_adjustment 24 = 10 /\
   Table.age_adjustment 46 = 10 /\ Table.age_adjustment 61 = 5 /\
   Table.frequency_adjustment 10 = 20 /\ Table.frequency_adjustment 9 = 15 /\
   Table.frequency_adjustment 1 = 5 /\ Table.frequency_adjustment 0 = 0 /\
   Table.recency_adjustment 56 = 15 /\ Table.recency_adjustment 55 = 10 /\
   Table.recency_adjustment 181 = -5) /\
  (forall f d : Z,
      calculate_fallback_score 25 f d = calculate_fallback_score 61 f d + 10 /\
      calculate_fallback_score 24 f d = calculate_fallback_score 61 f d + 5 /\
      calculate_fallback_score 46 f d = calculate_fallback_score 61 f d + 5) /\
  (forall age d : Z,
      calculate_fallback_score age 10 d = calculate_fallback_score age 0 d + 20 /\
      calculate_fallback_score age 9 d = calculate_fallback_score age 0 d + 15 /\
      calculate_fallback_score age 1 d = calculate_fallback_score age 0 d + 5) /\
  (forall age f : Z,
      calculate_fallback_score age f 56 = calculate_fallback_score age f 0 + 15 /\
      calculate_fallback_score age f 55 = calculate_fallback_score age f 0 + 10 /\
      calculate_fallback_score age f 181 = calculate_fallback_score age f 0 - 5) /\
  calculate_fallback_score 61 0 0 = 55.
Proof.
  assert (Hclamp : forall age f d,
             calculate_fallback_score age f d = fallback_points age f d).
  { intros age f d. unfold calculate_fallback_score.
    pose proof (fallback_points_range age f d). lia. }
  split; [exact fallback_score_table|].
  split; [exact age_rows_exclusive|].
  split; [exact frequency_rows_exclusive|].
  split; [exact frequency_rows_cover|].
  split; [exact recency_rows_cover|].
  split; [repeat split; reflexivity|].
  split; [|split; [|split]].
  - intros f d. rewrite !Hclamp, !fallback_points_table.
    repeat split; vm_compute Table.age_adjustment; lia.
  - intros age d. rewrite !Hclamp, !fallback_points_table.
    change (Table.frequency_adjustment 10) with 20.
    change (Table.frequency_adjustment 9) with 15.
    change (Table.frequency_adjustment 1) with 5.
    change (Table.frequency_adjustment 0) with 0.
    lia.
  - intros age f. rewrite !Hclamp, !fallback_points_table.
    change (Table.recency_adjustment 56) with 15.
    change (Table.recency_adjustment 55) with 10.
    change (Table.recency_adjustment 181) with (-5).
    change (Table.recency_adjustment 0) with 0.
    lia.
  - reflexivity.
Qed.

(** A frequency of 7 lies in the band 5-9 and in no other. *)
Lemma C4_fallback_score_witness :
  Table.matching 7 Table.frequency_rows = [Table.Band (Some 5) (Some 9) 15] /\
  length (Table.matching 7 Table.frequency_rows) = 1%nat /\
  calculate_fallback_score 30 7 60 = 50 + 15 + 15 + 15.
Proof.
  destruct C4_fallback_score_is_banded_sum as (Hsum & _ & _ & Hone & _).
  split; [reflexivity|].
  split; [apply Hone; lia | rewrite Hsum; reflexivity].
Defined.

(** C10. The points summed by the heuristic scorer lie in [50,100] for all
    integer inputs (so in particular for a frequency and a day count that
    are not negative): the least sum 50 + 5 + 0 - 5 = 50 and the greatest
    50 + 15 + 20 + 15 = 100 are both reached, and the final clamp
    [max(0, min(100, score))] returns the sum unchanged. *)
Theorem C10_fallback_clamp_is_identity :
  (forall age f d : Z,
      50 <= fallback_points age f d <= 100 /\
      calculate_fallback_score age f d = fallback_points age f d /\
      50 <= calculate_fallback_score age f d <= 100) /\
  fallback_points 70 0 200 = 50 + 5 + 0 - 5 /\
  fallback_points 30 10 60 = 50 + 15 + 20 + 15.
Proof.
  split; [|split; reflexivity].
  intros age f d. pose proof (fallback_points_range age f d) as H.
  unfold calculate_fallback_score. lia.
Qed.

(** *** RecencyCalculator *)

Section Recency.

Variable now : Z.
Variable fromisoformat : string -> result datetime.

Lemma days_since_falsy v :
  truthy v = false ->
  calculate_days_since_last_donation now fromisoformat v = Ok 365.
Proof.
  intros H. unfold calculate_days_since_last_donation.
  now rewrite H.
Qed.

Lemma days_since_datetime d :
  calculate_days_since_last_donation now fromisoformat (PyDatetime d)
  = Ok (Z.max 0 (days (now - wall d))).
Proof. reflexivity. Qed.

Lemma days_since_str s :
  s <> ""%string ->
  calculate_days_since_last_donation now fromisoformat (PyStr s) =
  match fromisoformat (replace_char "Z" "+00:00" s) with
  | Ok d => Ok (Z.max 0 (days (now - wall d)))
  | Raise _ => Ok 365
  end.
Proof.
  intros Hs. unfold calculate_days_since_last_donation; simpl.
  destruct (String.eqb_spec s ""); [contradiction|]; simpl.
  now destruct (fromisoformat _).
Qed.

Lemma days_since_unsupported v :
  (forall s, v <> PyStr s) -> (forall d, v <> PyDatetime d) ->
  calculate_days_since_last_donation now fromisoformat v = Ok 365.
Proof.
  intros Hs Hd. unfold calculate_days_since_last_donation.
  destruct v; try reflexivity;
    try (destruct (truthy _); reflexivity).
  - now elim (Hs s).
  - now elim (Hd d).
Qed.

Lemma days_since_total v :
  exists n, calculate_days_since_last_donation now fromisoformat v = Ok n /\ 0 <= n.
Proof.
  destruct v as [| | | | s | | | |d].
  all: try (exists 365; split; [apply days_since_unsupported; congruence | lia]).
  - destruct (String.eqb_spec s "") as [->|Hs].
    + exists 365. split; [now apply days_since_falsy | lia].
    + rewrite (days_since_str s Hs).
      destruct (fromisoformat _).
      * eexists; split; [reflexivity | lia].
      * exists 365; split; [reflexivity | lia].
  - eexists. split; [apply days_since_datetime | lia].
Qed.

End Recency.

(** C5. [calculate_days_since_last_donation] returns 365 for an absent or
    null date (and for any other falsy value); returns 365, raising
    nothing, for a string that [fromisoformat] rejects and for a value
    that is neither a string nor a datetime; returns
    [max(0, whole days elapsed)] for a string that parses and for a native
    datetime; so for every input it returns an integer that is not
    negative. *)
Theorem C5_days_since_defaults_and_floor (now : Z)
    (fromisoformat : string -> result datetime) :
  let days_since := calculate_days_since_last_donation now fromisoformat in
  days_since PyNone = Ok 365 /\
  (forall v, truthy v = false -> days_since v = Ok 365) /\
  (forall s e, fromisoformat (replace_char "Z" "+00:00" s) = Raise e ->
               days_since (PyStr s) = Ok 365) /\
  (forall v, (forall s, v <> PyStr s) -> (forall d, v <> PyDatetime d) ->
             days_since v = Ok 365) /\
  (forall s d, s <> ""%string ->
               fromisoformat (replace_char "Z" "+00:00" s) = Ok d ->
               days_since (PyStr s) = Ok (Z.max 0 (days (now - wall d)))) /\
  (forall d, days_since (PyDatetime d) = Ok (Z.max 0 (days (now - wall d)))) /\
  (forall v, exists n, days_since v = Ok n /\ 0 <= n).
Proof.
  intros days_since. unfold days_since.
  split; [reflexivity|].
  split; [apply days_since_falsy|].
  split.
  { intros s e He. destruct (String.eqb_spec s "") as [->|Hs].
    - reflexivity.
    - now rewrite (days_since_str now fromisoformat s Hs), He. }
  split; [apply days_since_unsupported|].
  split.
  { intros s d Hs Hd. now rewrite (days_since_str now fromisoformat s Hs), Hd. }
  split; [apply days_since_datetime | apply days_since_total].
Qed.

(** A timestamp with the UTC designator, 75 days and 12 hours before
    [Sample.now]; a malformed string; an integer. *)
Lemma C5_days_since_witness :
  calculate_days_since_last_donation Sample.now Sample.fromisoformat
    (PyStr "2024-01-01T00:00:00Z") = Ok 75 /\
  calculate_days_since_last_donation Sample.now Sample.fromisoformat
    (PyStr "yesterday") = Ok 365 /\
  calculate_days_since_last_donation Sample.now Sample.fromisoformat
    (PyInt 20240101) = Ok 365.
Proof.
  destruct (C5_days_since_defaults_and_floor Sample.now Sample.fromisoformat)
    as (_ & _ & Hbad & Hother & Hgood & _).
  split; [|split].
  - apply (Hgood "2024-01-01T00:00:00Z"%string Sample.new_year);
      [discriminate | reflexivity].
  - apply (Hbad "yesterday"%string ValueError). reflexivity.
  - apply Hother; discriminate.
Defined.

(** *** FeatureExtractor: the region factor *)

Lemma region_map_lookup (key : string) :
  default 0.2%Q (region_map !! key) = 
  if String.eqb key "north" then 0.2%Q
  else if String.eqb key "south" then 0.3%Q
  else if String.eqb key "east" then 0.25%Q
  else if String.eqb key "west" then 0.25%Q
  else if String.eqb key "central" then 0.3%Q
  else 0.2%Q.
Proof.
  unfold region_map.
  repeat match goal with
  | |- context [String.eqb key ?lit] =>
      destruct (String.eqb_spec key lit) as [->|?];
      [reflexivity | rewrite lookup_insert_ne by congruence]
  end.
  destruct (decide (key = "unknown")) as [->|?]; [reflexivity|].
  now rewrite lookup_singleton_ne by congruence.
Qed.

Lemma region_factor_table (r : string) :
  (region_factor_of r == region_table (lower r))%Q.
Proof.
  unfold region_factor_of, region_table. rewrite region_map_lookup.
  repeat (destruct (String.eqb (lower r) _); [reflexivity|]).
  reflexivity.
Qed.

Lemma region_table_unmatched (key : string) :
  ~ In key known_regions -> region_table key = 0.20%Q.
Proof.
  intros Hn. unfold region_table.
  repeat match goal with
  | |- context [String.eqb key ?lit] =>
      destruct (String.eqb_spec key lit) as [->|?];
      [exfalso; apply Hn; simpl; tauto|]
  end.
  reflexivity.
Qed.

(** C6. For every region string the region factor is the value the fixed
    table (north 0.20, south 0.30, east 0.25, west 0.25, central 0.30,
    unknown 0.20) gives its lower-cased form: a region written in any
    casing of a known name gets that name's value, and a region that
    matches no name, or is missing from the record, gets 0.20, the value
    of "unknown". *)
Theorem C6_region_factor_is_table_of_lowercase :
  (forall r : string, region_factor_of r == region_table (lower r))%Q /\
  (region_table "north" == 0.20 /\ region_table "south" == 0.30 /\
   region_table "east" == 0.25 /\ region_table "west" == 0.25 /\
   region_table "central" == 0.30 /\ region_table "unknown" == 0.20)%Q /\
  (forall r known : string,
      In known known_regions -> lower r = known ->
      (region_factor_of r == region_table known)%Q) /\
  (region_factor_of "NORTH" == 0.20 /\ region_factor_of "North" == 0.20 /\
   region_factor_of "sOuTh" == 0.30 /\ region_factor_of "CENTRAL" == 0.30 /\
   region_factor_of "East" == 0.25 /\ region_factor_of "WEST" == 0.25)%Q /\
  (forall r : string,
      ~ In (lower r) known_regions ->
      (region_factor_of r == 0.20)%Q /\
      (region_factor_of r == region_factor_of "unknown")%Q) /\
  (region_factor_of (get None "unknown"%string) == 0.20)%Q.
Proof.
  split; [exact region_factor_table|].
  split; [repeat split; reflexivity|].
  split; [intros r known _ <-; apply region_factor_table|].
  split; [repeat split; reflexivity|].
  split; [|reflexivity].
  intros r Hr. rewrite region_factor_table, (region_table_unmatched _ Hr).
  split; reflexivity.
Qed.

(** "Central" is a casing of a known region; "centre" matches nothing. *)
Lemma C6_region_factor_witness :
  (region_factor_of "Central" == region_table "central")%Q /\
  (region_factor_of "centre" == 0.20)%Q.
Proof.
  destruct C6_region_factor_is_table_of_lowercase as (_ & _ & Hknown & _ & Hnone & _).
  split.
  - apply Hknown; [simpl; tauto | reflexivity].
  - apply Hnone. simpl. intuition discriminate.
Defined.


(** *** Rounding: to an integer, and to binary64 *)

Lemma Qle_bool_false (x y : Q) : (y < x)%Q -> Qle_bool x y = false.
Proof.
  intros H. apply not_true_is_false. intros Hle.
  apply Qle_bool_iff in Hle. now apply Qlt_not_le in H.
Qed.

Lemma Qle_bool_false_lt (x y : Q) : Qle_bool x y = false -> (y < x)%Q.
Proof.
  intros H. apply Qnot_le_lt. intros Hle.
  apply Qle_bool_iff in Hle. congruence.
Qed.

Lemma rint_floor_bounds (q : Q) : Qfloor q <= rint q <= Qfloor q + 1.
Proof.
  unfold rint; cbv zeta.
  destruct (Qle_bool _ _); [destruct (Qeq_bool _ _); [destruct (Z.even _)|]|]; lia.
Qed.

Lemma rint_lower (q : Q) (n : Z) : (inject_Z n <= q)%Q -> n <= rint q.
Proof.
  intros H. pose proof (rint_floor_bounds q) as [Hf _].
  assert (n <= Qfloor q); [|lia].
  rewrite <- (Qfloor_Z n). now apply Qfloor_resp_le.
Qed.

Lemma rint_upper (q : Q) (n : Z) : (q <= inject_Z n)%Q -> rint q <= n.
Proof.
  intros Hhi.
  pose proof (rint_floor_bounds q) as [Hf Hc].
  assert (Hn : Qfloor q <= n).
  { rewrite <- (Qfloor_Z n). now apply Qfloor_resp_le. }
  destruct (Z.eq_dec (Qfloor q) n) as [E|NE]; [|lia].
  assert (Hq : (q == inject_Z n)%Q).
  { apply Qle_antisym; [exact Hhi|]. rewrite <- E. apply Qfloor_le. }
  unfold rint; cbv zeta. rewrite E.
  assert (Hr : (q - inject_Z n == 0)%Q) by (rewrite Hq; ring).
  assert (Hle : Qle_bool (q - inject_Z n) (1 # 2) = true).
  { apply Qle_bool_iff. rewrite Hr. discriminate. }
  assert (Hne : Qeq_bool (q - inject_Z n) (1 # 2) = false).
  { apply not_true_is_false. intros Heq. apply Qeq_bool_iff in Heq.
    rewrite Hr in Heq. discriminate. }
  rewrite Hle, Hne. lia.
Qed.

Lemma rint_near (q : Q) :
  (inject_Z (rint q) - (1 # 2) <= q <= inject_Z (rint q) + (1 # 2))%Q.
Proof.
  pose proof (Qfloor_le q) as Hlo. pose proof (Qlt_floor q) as Hhi.
  unfold rint; cbv zeta.
  destruct (Qle_bool (q - inject_Z (Qfloor q)) (1 # 2)) eqn:Hle.
  - apply Qle_bool_iff in Hle.
    destruct (Qeq_bool (q - inject_Z (Qfloor q)) (1 # 2)) eqn:Heq.
    + apply Qeq_bool_iff in Heq.
      destruct (Z.even (Qfloor q)).
      * lra.
      * rewrite inject_Z_plus. change (inject_Z 1) with 1%Q. lra.
    + lra.
  - assert (~ (q - inject_Z (Qfloor q) <= 1 # 2)%Q) as Hn.
    { intros H. apply Qle_bool_iff in H. congruence. }
    apply Qnot_le_lt in Hn.
    rewrite inject_Z_plus in *. change (inject_Z 1) with 1%Q in *. lra.
Qed.

Lemma pow2_pos (e : Z) : (0 < pow2 e)%Q.
Proof. apply Qpower_0_lt. reflexivity. Qed.

Lemma pow2_nonneg_exp (e : Z) : 0 <= e -> (pow2 e == inject_Z (2 ^ e))%Q.
Proof. intros H. symmetry. exact (Zpower_Qpower 2 e H). Qed.

Lemma pow2_neg_exp (e : Z) : e <= 0 -> (pow2 e == / inject_Z (2 ^ (- e)))%Q.
Proof.
  intros H. unfold pow2.
  replace e with (- - e) at 1 by lia. rewrite Qpower_opp.
  apply Qinv_comp. apply pow2_nonneg_exp. lia.
Qed.

Lemma pow2_mono (e1 e2 : Z) : e1 <= e2 -> (pow2 e1 <= pow2 e2)%Q.
Proof. intros H. apply Qpower_le_compat_l; [exact H | discriminate]. Qed.

Lemma ilog2_le (a : Q) : (0 < a)%Q -> (pow2 (ilog2 a) <= a)%Q.
Proof.
  intros Ha. unfold ilog2; cbv zeta.
  destruct (Qle_bool _ a) eqn:Hk; [now apply Qle_bool_iff|].
  destruct a as [n d]. cbn [Qnum Qden] in *.
  assert (Hn : 0 < n) by (unfold Qlt in Ha; simpl in Ha; lia).
  pose proof (Z.log2_spec n Hn) as [Hn1 _].
  pose proof (Z.log2_spec (Zpos d) ltac:(lia)) as [_ Hd2].
  pose proof (Z.log2_nonneg n). pose proof (Z.log2_nonneg (Zpos d)).
  replace (Z.log2 n - Z.log2 (Z.pos d) - 1)
    with (Z.log2 n - Z.succ (Z.log2 (Z.pos d))) by lia.
  unfold pow2. rewrite Qpower_minus by discriminate.
  fold (pow2 (Z.log2 n)). fold (pow2 (Z.succ (Z.log2 (Z.pos d)))).
  rewrite !pow2_nonneg_exp by lia.
  assert (Hp : 0 < 2 ^ Z.succ (Z.log2 (Z.pos d))) by (apply Z.pow_pos_nonneg; lia).
  remember (2 ^ Z.log2 n) as A. remember (2 ^ Z.succ (Z.log2 (Z.pos d))) as B.
  apply Qle_shift_div_r; [unfold Qlt; simpl; lia|].
  unfold Qle; simpl.
  nia.
Qed.

Lemma small_exponent (a : Q) (n : Z) :
  (0 < a)%Q -> (a <= inject_Z n)%Q -> n < 2 ^ 53 ->
  Z.max (ilog2 a - 52) (-1074) <= 0.
Proof.
  intros Ha Hn Hlt.
  destruct (Z_le_gt_dec (ilog2 a - 52) 0) as [?|Hgt]; [lia|].
  exfalso.
  pose proof (ilog2_le a Ha) as Hl.
  pose proof (pow2_mono 53 (ilog2 a) ltac:(lia)) as Hm.
  rewrite (pow2_nonneg_exp 53) in Hm by lia.
  assert (H : (inject_Z (2 ^ 53) <= inject_Z n)%Q)
    by (eapply Qle_trans; [exact Hm|]; eapply Qle_trans; eassumption).
  rewrite <- Zle_Qle in H. lia.
Qed.

(** The scaled value [a / 2^e] for an exponent that is not positive. *)
Lemma scaled_small (a : Q) (e : Z) :
  e <= 0 -> (a / pow2 e == a * inject_Z (2 ^ (- e)))%Q.
Proof.
  intros He. rewrite (pow2_neg_exp e He). unfold Qdiv.
  now rewrite Qinv_involutive.
Qed.

Lemma unscaled_small (m e : Z) :
  e <= 0 -> (inject_Z m * pow2 e == inject_Z m / inject_Z (2 ^ (- e)))%Q.
Proof. intros He. now rewrite (pow2_neg_exp e He). Qed.

Lemma binary64_pos_le (a : Q) (n : Z) :
  (0 < a)%Q -> (a <= inject_Z n)%Q -> n < 2 ^ 53 ->
  exists r, binary64_pos a = Some r /\ (0 <= r <= inject_Z n)%Q.
Proof.
  intros Ha Hn Hlt. unfold binary64_pos; cbv zeta.
  pose proof (small_exponent a n Ha Hn Hlt) as He.
  set (e := Z.max (ilog2 a - 52) (-1074)) in *.
  assert (Hp : 0 < 2 ^ (- e)) by (apply Z.pow_pos_nonneg; lia).
  assert (Hpq : (0 < inject_Z (2 ^ (- e)))%Q)
    by (change 0%Q with (inject_Z 0); now rewrite <- Zlt_Qlt).
  assert (Hm : 0 <= rint (a / pow2 e) <= n * 2 ^ (- e)).
  { split.
    - apply rint_lower. rewrite (scaled_small a e He).
      apply Qmult_le_0_compat; [now apply Qlt_le_weak | now apply Qlt_le_weak].
    - apply rint_upper. rewrite (scaled_small a e He), inject_Z_mult.
      apply Qmult_le_compat_r; [exact Hn | now apply Qlt_le_weak]. }
  set (m := rint (a / pow2 e)) in *.
  assert (Hr : (0 <= inject_Z m * pow2 e <= inject_Z n)%Q).
  { rewrite (unscaled_small m e He). split.
    - apply Qle_shift_div_l; [exact Hpq|]. rewrite Qmult_0_l.
      change 0%Q with (inject_Z 0). rewrite <- Zle_Qle. lia.
    - apply Qle_shift_div_r; [exact Hpq|].
      rewrite <- inject_Z_mult, <- Zle_Qle. lia. }
  destruct (Qle_bool (pow2 1024) (inject_Z m * pow2 e)) eqn:Hov.
  - exfalso. apply Qle_bool_iff in Hov.
    rewrite (pow2_nonneg_exp 1024) in Hov by lia.
    assert (H : (inject_Z (2 ^ 1024) <= inject_Z n)%Q)
      by (eapply Qle_trans; [exact Hov | apply Hr]).
    rewrite <- Zle_Qle in H.
    assert (2 ^ 53 < 2 ^ 1024) by (apply Z.pow_lt_mono_r; lia). lia.
  - eexists. split; [reflexivity | exact Hr].
Qed.

Lemma binary64_pos_nonneg (a r : Q) :
  (0 < a)%Q -> binary64_pos a = Some r -> (0 <= r)%Q.
Proof.
  intros Ha. unfold binary64_pos; cbv zeta.
  destruct (Qle_bool _ _); [discriminate|]. intros [= <-].
  apply Qmult_le_0_compat; [|apply Qlt_le_weak, pow2_pos].
  change 0%Q with (inject_Z 0). rewrite <- Zle_Qle.
  apply rint_lower. apply Qle_shift_div_l; [apply pow2_pos|].
  rewrite Qmult_0_l. now apply Qlt_le_weak.
Qed.

Lemma binary64_pos_ge (a r : Q) (n : Z) :
  (0 < a)%Q -> (inject_Z n <= a)%Q -> 0 <= n < 2 ^ 53 ->
  binary64_pos a = Some r -> (inject_Z n <= r)%Q.
Proof.
  intros Ha Hn Hlt. unfold binary64_pos; cbv zeta.
  destruct (Qle_bool _ _); [discriminate|]. intros [= <-].
  set (e := Z.max (ilog2 a - 52) (-1074)).
  destruct (Z_le_gt_dec e 0) as [He|He].
  - assert (Hp : 0 < 2 ^ (- e)) by (apply Z.pow_pos_nonneg; lia).
    assert (Hpq : (0 < inject_Z (2 ^ (- e)))%Q)
      by (change 0%Q with (inject_Z 0); now rewrite <- Zlt_Qlt).
    assert (Hm : n * 2 ^ (- e) <= rint (a / pow2 e)).
    { apply rint_lower. rewrite (scaled_small a e He), inject_Z_mult.
      apply Qmult_le_compat_r; [exact Hn | now apply Qlt_le_weak]. }
    rewrite (unscaled_small _ e He).
    apply Qle_shift_div_l; [exact Hpq|].
    now rewrite <- inject_Z_mult, <- Zle_Qle.
  - (* a large value: the result is at least 2^53 *)
    assert (Hil : e = ilog2 a - 52) by (unfold e in *; lia).
    assert (Hm : 2 ^ 52 <= rint (a / pow2 e)).
    { apply rint_lower. apply Qle_shift_div_l; [apply pow2_pos|].
      rewrite <- (pow2_nonneg_exp 52) by lia.
      unfold pow2. rewrite <- Qpower_plus by discriminate.
      replace (52 + e) with (ilog2 a) by lia. now apply ilog2_le. }
    assert (H2 : (2 <= pow2 e)%Q).
    { change 2%Q with (pow2 1). apply pow2_mono. lia. }
    assert (H52 : (inject_Z (2 ^ 52) <= inject_Z (rint (a / pow2 e)))%Q)
      by now rewrite <- Zle_Qle.
    assert (Hn53 : (inject_Z n <= inject_Z (2 ^ 52) * 2)%Q).
    { change 2%Q with (inject_Z 2). rewrite <- inject_Z_mult, <- Zle_Qle.
      change (2 ^ 52 * 2) with (2 ^ 53). lia. }
    eapply Qle_trans; [exact Hn53|].
    eapply Qle_trans; [apply Qmult_le_compat_r; [exact H52 | discriminate]|].
    apply Qmult_le_l; [|exact H2].
    eapply Qlt_le_trans; [|exact H52]. reflexivity.
Qed.

Lemma binary64_zero (q : Q) : (q == 0)%Q -> binary64 q = FFin 0.
Proof.
  intros H. unfold binary64. apply Qeq_alt in H. now rewrite H.
Qed.

(** A value between 0 and an integer below 2^53 rounds to a float
    between the same bounds. *)
Lemma binary64_range (q : Q) (n : Z) :
  (0 <= q <= inject_Z n)%Q -> n < 2 ^ 53 ->
  exists r, binary64 q = FFin r /\ (0 <= r <= inject_Z n)%Q.
Proof.
  intros [Hlo Hhi] Hn. unfold binary64.
  destruct (Qcompare q 0) eqn:Hc.
  - exists 0%Q. split; [reflexivity|]. split; [discriminate|].
    eapply Qle_trans; eassumption.
  - apply Qlt_alt in Hc. exfalso. lra.
  - apply Qgt_alt in Hc.
    destruct (binary64_pos_le q n Hc Hhi Hn) as (r & -> & Hr).
    now exists r.
Qed.

Lemma binary64_symmetric_range (q : Q) (n : Z) :
  (- inject_Z n <= q <= inject_Z n)%Q -> n < 2 ^ 53 ->
  exists r, binary64 q = FFin r /\ (- inject_Z n <= r <= inject_Z n)%Q.
Proof.
  intros [Hlo Hhi] Hn. unfold binary64.
  destruct (Qcompare q 0) eqn:Hc.
  - exists 0%Q. split; [reflexivity|]. apply Qeq_alt in Hc. lra.
  - apply Qlt_alt in Hc.
    destruct (binary64_pos_le (- q) n) as (r & -> & Hr); [lra|lra|exact Hn|].
    exists (- r)%Q. split; [reflexivity|]. lra.
  - apply Qgt_alt in Hc.
    destruct (binary64_pos_le q n Hc Hhi Hn) as (r & -> & Hr).
    exists r. split; [reflexivity|]. lra.
Qed.

(** Rounding keeps the sign, and never gives NaN. *)
Lemma binary64_nonneg (q : Q) :
  (0 <= q)%Q ->
  binary64 q = FInf false \/ exists r, binary64 q = FFin r /\ (0 <= r)%Q.
Proof.
  intros Hq. unfold binary64.
  destruct (Qcompare q 0) eqn:Hc.
  - right. exists 0%Q. split; [reflexivity | discriminate].
  - apply Qlt_alt in Hc. exfalso. lra.
  - apply Qgt_alt in Hc.
    destruct (binary64_pos q) as [r|] eqn:Hr; [right|now left].
    exists r. split; [reflexivity|]. eapply binary64_pos_nonneg; eassumption.
Qed.

Lemma binary64_nonpos (q : Q) :
  (q <= 0)%Q ->
  binary64 q = FInf true \/ exists r, binary64 q = FFin r /\ (r <= 0)%Q.
Proof.
  intros Hq. unfold binary64.
  destruct (Qcompare q 0) eqn:Hc.
  - right. exists 0%Q. split; [reflexivity | discriminate].
  - apply Qlt_alt in Hc.
    destruct (binary64_pos (- q)) as [r|] eqn:Hr; [right|now left].
    exists (- r)%Q. split; [reflexivity|].
    assert (0 <= r)%Q by (eapply (binary64_pos_nonneg (- q)); [lra | eassumption]).
    lra.
  - apply Qgt_alt in Hc. exfalso. lra.
Qed.

(** A value that is at least an integer below 2^53 rounds to a float
    that is at least that integer, or overflows. *)
Lemma binary64_ge (q : Q) (n : Z) :
  (inject_Z n <= q)%Q -> 0 <= n < 2 ^ 53 ->
  binary64 q = FInf false \/
  exists r, binary64 q = FFin r /\ (inject_Z n <= r)%Q.
Proof.
  intros Hq Hn.
  assert (Hn0 : (0 <= inject_Z n)%Q)
    by (change 0%Q with (inject_Z 0); rewrite <- Zle_Qle; lia).
  unfold binary64.
  destruct (Qcompare q 0) eqn:Hc.
  - apply Qeq_alt in Hc. right. exists 0%Q. split; [reflexivity|]. lra.
  - apply Qlt_alt in Hc. exfalso. lra.
  - apply Qgt_alt in Hc.
    destruct (binary64_pos q) as [r|] eqn:Hr; [right|now left].
    exists r. split; [reflexivity|].
    eapply binary64_pos_ge; eassumption.
Qed.

Lemma ilog2_lt (a : Q) : (0 < a)%Q -> (a < pow2 (ilog2 a + 1))%Q.
Proof.
  intros Ha. unfold ilog2; cbv zeta.
  destruct (Qle_bool _ a) eqn:Hk.
  - destruct a as [n d]. cbn [Qnum Qden] in *.
    assert (Hn : 0 < n) by (unfold Qlt in Ha; simpl in Ha; lia).
    pose proof (Z.log2_spec n Hn) as [_ Hn2].
    pose proof (Z.log2_spec (Zpos d) ltac:(lia)) as [Hd1 _].
    pose proof (Z.log2_nonneg n). pose proof (Z.log2_nonneg (Zpos d)).
    replace (Z.log2 n - Z.log2 (Z.pos d) + 1)
      with (Z.succ (Z.log2 n) - Z.log2 (Z.pos d)) by lia.
    unfold pow2. rewrite Qpower_minus by discriminate.
    fold (pow2 (Z.succ (Z.log2 n))). fold (pow2 (Z.log2 (Z.pos d))).
    rewrite !pow2_nonneg_exp by lia.
    assert (Hp : 0 < 2 ^ Z.log2 (Z.pos d)) by (apply Z.pow_pos_nonneg; lia).
    remember (2 ^ Z.succ (Z.log2 n)) as A. remember (2 ^ Z.log2 (Z.pos d)) as B.
    apply Qlt_shift_div_l; [unfold Qlt; simpl; lia|].
    unfold Qlt; simpl.
    nia.
  - replace (Z.log2 (Qnum a) - Z.log2 (Z.pos (Qden a)) - 1 + 1)
      with (Z.log2 (Qnum a) - Z.log2 (Z.pos (Qden a))) by lia.
    now apply Qle_bool_false_lt.
Qed.

Lemma pow2_plus (e1 e2 : Z) : (pow2 (e1 + e2) == pow2 e1 * pow2 e2)%Q.
Proof. unfold pow2. apply Qpower_plus. discriminate. Qed.

(** Scaling back: bounds on [x = a / p] give bounds on [a]. *)
Lemma unscale_bounds (a p lo hi : Q) :
  (0 < p)%Q -> (lo <= a / p <= hi)%Q -> (lo * p <= a <= hi * p)%Q.
Proof.
  intros Hp [Hlo Hhi].
  assert (Ha : (a == a / p * p)%Q).
  { rewrite Qmult_comm, Qmult_div_r; [reflexivity|]. intros H. rewrite H in Hp.
    discriminate. }
  split.
  - eapply Qle_trans;
      [apply Qmult_le_compat_r; [exact Hlo | now apply Qlt_le_weak]|].
    rewrite <- Ha. apply Qle_refl.
  - eapply Qle_trans;
      [|apply Qmult_le_compat_r; [exact Hhi | now apply Qlt_le_weak]].
    rewrite <- Ha. apply Qle_refl.
Qed.

(** The digits [binary64_pos] keeps: with [e] the exponent it chooses and
    [m] the scaled value rounded, [m] has at most 53 bits (exactly 53
    unless [e] is the exponent of the subnormals), and [m * 2^e] is within
    half a unit in the last place of the rational. *)
Lemma binary64_pos_digits (a : Q) :
  (0 < a)%Q ->
  let e := Z.max (ilog2 a - 52) (-1074) in
  let m := rint (a / pow2 e) in
  0 <= m <= 2 ^ 53 /\
  (-1074 < e -> 2 ^ 52 <= m /\ (pow2 (e + 52) <= a)%Q) /\
  (a < pow2 (e + 53))%Q /\
  (inject_Z m * pow2 e - pow2 e / 2 <= a
   <= inject_Z m * pow2 e + pow2 e / 2)%Q.
Proof.
  intros Ha e m.
  pose proof (pow2_pos e) as Hp.
  assert (Hlt : (a < pow2 (e + 53))%Q).
  { eapply Qlt_le_trans; [apply (ilog2_lt a Ha)|].
    apply pow2_mono. unfold e. lia. }
  split; [split|split; [|split; [exact Hlt|]]].
  - apply rint_lower. apply Qle_shift_div_l; [exact Hp|].
    rewrite Qmult_0_l. now apply Qlt_le_weak.
  - apply rint_upper. apply Qle_shift_div_r; [exact Hp|].
    rewrite <- (pow2_nonneg_exp 53) by lia.
    rewrite <- pow2_plus. rewrite Z.add_comm. now apply Qlt_le_weak.
  - intros He. assert (Hil : e + 52 = ilog2 a) by (unfold e in *; lia).
    assert (Hle : (pow2 (e + 52) <= a)%Q) by (rewrite Hil; now apply ilog2_le).
    split; [|exact Hle].
    apply rint_lower. apply Qle_shift_div_l; [exact Hp|].
    rewrite <- (pow2_nonneg_exp 52) by lia.
    rewrite <- pow2_plus. now rewrite Z.add_comm.
  - pose proof (rint_near (a / pow2 e)) as Hnear. fold m in Hnear.
    apply (unscale_bounds a (pow2 e)) in Hnear; [|exact Hp].
    destruct Hnear as [Hlo Hhi].
    assert (E1 : ((inject_Z m - (1 # 2)) * pow2 e
                  == inject_Z m * pow2 e - pow2 e / 2)%Q) by field.
    assert (E2 : ((inject_Z m + (1 # 2)) * pow2 e
                  == inject_Z m * pow2 e + pow2 e / 2)%Q) by field.
    rewrite E1 in Hlo. rewrite E2 in Hhi. now split.
Qed.

(** A positive rational that does not overflow rounds to [m * 2^e] with
    at most 53 significant bits and an exponent of binary64, the one of
    the floats at its magnitude, within half a unit in the last place. *)
Lemma binary64_pos_nearest (a r : Q) :
  (0 < a)%Q -> binary64_pos a = Some r ->
  exists m e : Z,
    r = (inject_Z m * pow2 e)%Q /\
    0 <= m <= 2 ^ 53 /\ -1074 <= e <= 971 /\
    (-1074 < e -> 2 ^ 52 <= m /\ (pow2 (e + 52) <= a)%Q) /\
    (a < pow2 (e + 53))%Q /\
    (r - pow2 e / 2 <= a <= r + pow2 e / 2)%Q /\
    (0 <= r < pow2 1024)%Q.
Proof.
  intros Ha.
  pose proof (binary64_pos_digits a Ha) as (Hm & Hnormal & Hlt & Hnear).
  unfold binary64_pos; cbv zeta.
  set (e := Z.max (ilog2 a - 52) (-1074)) in *.
  set (m := rint (a / pow2 e)) in *.
  destruct (Qle_bool _ _) eqn:Hov; [discriminate|]. intros [= <-].
  apply Qle_bool_false_lt in Hov.
  exists m, e. split; [reflexivity|]. split; [exact Hm|].
  split; [|split; [exact Hnormal|split; [exact Hlt|split; [exact Hnear|]]]].
  - split; [unfold e; lia|].
    destruct (Z_le_gt_dec e 971) as [?|Hbig]; [assumption|exfalso].
    destruct Hnormal as [H52 _]; [lia|].
    rewrite Zle_Qle in H52.
    rewrite <- (pow2_nonneg_exp 52) in H52 by lia.
    assert (H972 : (pow2 972 <= pow2 e)%Q) by (apply pow2_mono; lia).
    assert (H : (pow2 52 * pow2 972 <= inject_Z m * pow2 e)%Q).
    { eapply Qle_trans.
      - apply Qmult_le_compat_r; [exact H52|]. apply Qlt_le_weak, pow2_pos.
      - apply Qmult_le_l; [|exact H972].
        eapply Qlt_le_trans; [apply (pow2_pos 52) | exact H52]. }
    rewrite <- pow2_plus in H. change (52 + 972) with 1024 in H.
    apply (Qlt_irrefl (pow2 1024)). eapply Qle_lt_trans; eassumption.
  - split; [|exact Hov].
    apply Qmult_le_0_compat; [|apply Qlt_le_weak, pow2_pos].
    change 0%Q with (inject_Z 0). rewrite <- Zle_Qle. lia.
Qed.

(** A positive rational overflows only from 2^1024 - 2^970 on, half a
    unit in the last place above the largest float. *)
Lemma binary64_pos_overflow (a : Q) :
  (0 < a)%Q -> binary64_pos a = None -> (pow2 1024 - pow2 970 <= a)%Q.
Proof.
  intros Ha.
  pose proof (binary64_pos_digits a Ha) as (Hm & Hnormal & _ & Hnear).
  unfold binary64_pos; cbv zeta.
  set (e := Z.max (ilog2 a - 52) (-1074)) in *.
  set (m := rint (a / pow2 e)) in *.
  destruct (Qle_bool _ _) eqn:Hov; [|discriminate]. intros _.
  apply Qle_bool_iff in Hov.
  assert (H970 : (0 < pow2 970)%Q) by apply pow2_pos.
  assert (He : 971 <= e).
  { destruct (Z_le_gt_dec 971 e) as [?|Hsmall]; [assumption|exfalso].
    assert (Hpe : (pow2 e <= pow2 970)%Q) by (apply pow2_mono; lia).
    assert (H53 : (inject_Z m <= pow2 53)%Q).
    { rewrite (pow2_nonneg_exp 53) by lia. rewrite <- Zle_Qle. lia. }
    assert (H : (inject_Z m * pow2 e <= pow2 53 * pow2 970)%Q).
    { eapply Qle_trans.
      - apply Qmult_le_compat_r; [exact H53|]. apply Qlt_le_weak, pow2_pos.
      - apply Qmult_le_l; [apply pow2_pos | exact Hpe]. }
    rewrite <- pow2_plus in H. change (53 + 970) with 1023 in H.
    assert (Hlt : (pow2 1023 < pow2 1024)%Q) by reflexivity.
    apply (Qlt_irrefl (pow2 1024)).
    eapply Qle_lt_trans; [exact Hov|]. eapply Qle_lt_trans; eassumption. }
  destruct (Z.eq_dec e 971) as [E|NE].
  - destruct Hnear as [Hlo _]. rewrite E in *.
    assert (Ehalf : (pow2 971 / 2 == pow2 970)%Q) by reflexivity.
    rewrite Ehalf in Hlo.
    remember (inject_Z m * pow2 971)%Q as x.
    remember (pow2 1024) as top. remember (pow2 970) as half. lra.
  - destruct Hnormal as [_ Hle]; [lia|].
    eapply Qle_trans; [|exact Hle].
    eapply Qle_trans; [|apply (pow2_mono 1024 (e + 52)); lia].
    remember (pow2 1024) as top. remember (pow2 970) as half. lra.
Qed.

(** A finite result of [binary64] is a binary64 number nearest to the
    rational; an infinite result means the rational is at least
    2^1024 - 2^970 in size; NaN is never the result. *)
Lemma binary64_nearest (q : Q) :
  match binary64 q with
  | FFin r => nearest_float q r
  | FInf false => (pow2 1024 - pow2 970 <= q)%Q
  | FInf true => (q <= - (pow2 1024 - pow2 970))%Q
  | FNaN => False
  end.
Proof.
  unfold binary64. destruct (Qcompare q 0) eqn:Hc.
  - apply Qeq_alt in Hc. exists 0, (-1074).
    split; [reflexivity|]. split; [lia|]. split; [lia|].
    split; [lia|]. split; [lia|].
    pose proof (pow2_pos (-1074)) as Hp.
    pose proof (pow2_pos (-1074 + 53)) as Hp53.
    pose proof (pow2_pos 1024) as Hp1024.
    rewrite Hc.
    generalize dependent (pow2 (-1074)). generalize dependent (pow2 (-1074 + 53)).
    generalize dependent (pow2 1024). intros top Htop ulp53 H53 ulp Hulp.
    unfold Qdiv. change (/ 2)%Q with (1 # 2)%Q. lra.
  - apply Qlt_alt in Hc.
    assert (Ha : (0 < - q)%Q) by lra.
    destruct (binary64_pos (- q)) as [r|] eqn:Hr.
    + destruct (binary64_pos_nearest (- q) r Ha Hr)
        as (m & e & -> & Hm & He & Hn & Hlt & Hnear & Hfin).
      exists (- m), e. split; [rewrite inject_Z_opp; ring|].
      split; [lia|]. split; [exact He|].
      split; [intros H; destruct (Hn H) as [H52 _]; lia|].
      split; [intros H; destruct (Hn H) as [_ Hle]; right; lra|].
      pose proof (pow2_pos (e + 53)) as Hp53.
      generalize dependent (inject_Z m * pow2 e)%Q. intros r _ Hnear Hfin.
      generalize dependent (pow2 e). generalize dependent (pow2 (e + 53)).
      generalize dependent (pow2 1024). intros top Hfin ulp53 Hlt H53 ulp Hnear.
      unfold Qdiv in *. change (/ 2)%Q with (1 # 2)%Q in *. lra.
    + pose proof (binary64_pos_overflow (- q) Ha Hr) as Hov.
      generalize dependent (pow2 1024). generalize dependent (pow2 970).
      intros half top Hov. lra.
  - apply Qgt_alt in Hc.
    destruct (binary64_pos q) as [r|] eqn:Hr.
    + destruct (binary64_pos_nearest q r Hc Hr)
        as (m & e & -> & Hm & He & Hn & Hlt & Hnear & Hfin).
      exists m, e. split; [reflexivity|]. split; [lia|]. split; [exact He|].
      split; [intros H; destruct (Hn H) as [H52 _]; lia|].
      split; [intros H; destruct (Hn H) as [_ Hle]; now left|].
      pose proof (pow2_pos (e + 53)) as Hp53.
      pose proof (pow2_pos 1024) as Hp1024.
      generalize dependent (inject_Z m * pow2 e)%Q. intros r _ Hnear Hfin.
      generalize dependent (pow2 e). generalize dependent (pow2 (e + 53)).
      generalize dependent (pow2 1024). intros top Hfin Htop ulp53 Hlt H53 ulp Hnear.
      unfold Qdiv in *. change (/ 2)%Q with (1 # 2)%Q in *. lra.
    + now apply binary64_pos_overflow.
Qed.

(** The rounding error of a result below 2^k in size is at most
    2^(k - 54): half a unit in the last place of the floats below 2^k. *)
Lemma binary64_error (q r : Q) (k : Z) :
  binary64 q = FFin r -> (- pow2 k < r < pow2 k)%Q -> -1021 <= k ->
  (r - pow2 (k - 54) <= q <= r + pow2 (k - 54))%Q.
Proof.
  intros Hq [Hlo Hhi] Hk.
  pose proof (binary64_nearest q) as H. rewrite Hq in H.
  destruct H as (m & e & Hr & Hm & He & Hn & _ & _ & Hnear & _).
  assert (Hexp : e <= k - 53).
  { destruct (Z_le_gt_dec e (k - 53)) as [?|Hbig]; [assumption|exfalso].
    assert (Hk2 : (pow2 k <= pow2 (52 + e))%Q) by (apply pow2_mono; lia).
    rewrite pow2_plus, (pow2_nonneg_exp 52) in Hk2 by lia.
    pose proof (pow2_pos e) as Hp.
    specialize (Hn ltac:(lia)).
    destruct (Z_le_gt_dec 0 m) as [Hpos|Hneg].
    - assert (H52 : (inject_Z (2 ^ 52) <= inject_Z m)%Q)
        by (rewrite <- Zle_Qle; lia).
      assert (H : (inject_Z (2 ^ 52) * pow2 e <= inject_Z m * pow2 e)%Q)
        by (apply Qmult_le_compat_r; [exact H52 | now apply Qlt_le_weak]).
      rewrite <- Hr in H.
      generalize dependent (inject_Z (2 ^ 52) * pow2 e)%Q.
      generalize dependent (pow2 k). intros. lra.
    - assert (H52 : (inject_Z (2 ^ 52) <= - inject_Z m)%Q)
        by (rewrite <- inject_Z_opp, <- Zle_Qle; lia).
      assert (H : (inject_Z (2 ^ 52) * pow2 e <= - inject_Z m * pow2 e)%Q)
        by (apply Qmult_le_compat_r; [exact H52 | now apply Qlt_le_weak]).
      assert (Hr' : (- inject_Z m * pow2 e == - r)%Q) by (rewrite Hr; ring).
      rewrite Hr' in H.
      generalize dependent (inject_Z (2 ^ 52) * pow2 e)%Q.
      generalize dependent (pow2 k). intros. lra. }
  assert (Hhalf : (pow2 e / 2 <= pow2 (k - 54))%Q).
  { assert (E : (pow2 e == pow2 (e - 1) * 2)%Q).
    { replace e with (e - 1 + 1) at 1 by lia. now rewrite pow2_plus. }
    rewrite E. unfold Qdiv. rewrite <- Qmult_assoc.
    change (2 * / 2)%Q with (2 # 2)%Q.
    eapply Qle_trans; [|apply (pow2_mono (e - 1) (k - 54)); lia].
    generalize (pow2 (e - 1)). intros x. apply Qle_lteq. right.
    unfold Qeq; simpl. lia. }
  generalize dependent (pow2 e / 2)%Q. intros ulp Hnear Hhalf.
  generalize dependent (pow2 (k - 54)). intros bound Hhalf.
  lra.
Qed.

(** The two roundings at known values. [rint] takes a half to the even
    neighbour. [binary64] gives the double nearest to 0.1 and to -0.1;
    takes the ties 2^53 + 1 and 2^53 + 3 to the even neighbours 2^53 and
    2^53 + 4; gives the largest float just below the overflow threshold
    2^1024 - 2^970 and an infinity from there on; and takes half of the
    smallest subnormal to 0 and three halves of it to twice it. *)
Lemma rounding_examples :
  rint (1 # 2) = 0 /\ rint (3 # 2) = 2 /\ rint (5 # 2) = 2 /\
  rint (- (1 # 2)) = 0 /\ rint (- (3 # 2)) = -2 /\ rint (7 # 4) = 2 /\
  (exists r, binary64 0.1 = FFin r /\
             (r == 3602879701896397 # 36028797018963968)%Q) /\
  (exists r, binary64 (- 0.1) = FFin r /\
             (r == - (3602879701896397 # 36028797018963968))%Q) /\
  (exists r, binary64 (inject_Z (2 ^ 53 + 1)) = FFin r /\
             (r == inject_Z (2 ^ 53))%Q) /\
  (exists r, binary64 (inject_Z (2 ^ 53 + 3)) = FFin r /\
             (r == inject_Z (2 ^ 53 + 4))%Q) /\
  (exists r, binary64 (inject_Z (2 ^ 1024 - 2 ^ 970 - 1)) = FFin r /\
             (r == inject_Z (2 ^ 1024 - 2 ^ 971))%Q) /\
  binary64 (inject_Z (2 ^ 1024 - 2 ^ 970)) = FInf false /\
  binary64 (- inject_Z (2 ^ 1024 - 2 ^ 970)) = FInf true /\
  (exists r, binary64 (1 # 2 ^ 1075) = FFin r /\ (r == 0)%Q) /\
  (exists r, binary64 (3 # 2 ^ 1075) = FFin r /\ (r == 1 # 2 ^ 1073)%Q).
Proof.
  repeat split;
    try (eexists; split; [vm_compute; reflexivity | vm_compute; reflexivity]);
    vm_compute; reflexivity.
Qed.

(** True division at known values: a third, and the overflow of a
    quotient beyond the floats. *)
Lemma truediv_examples :
  (exists q, truediv 1 3 = Ok q /\
             (q == 6004799503160661 # 18014398509481984)%Q) /\
  truediv (10 ^ 400) 12 = Raise OverflowError /\
  truediv (- 10 ^ 309) 1 = Raise OverflowError /\
  truediv 5 0 = Raise ZeroDivisionError.
Proof.
  repeat split;
    try (eexists; split; [vm_compute; reflexivity | vm_compute; reflexivity]);
    vm_compute; reflexivity.
Qed.

(** *** FeatureExtractor: the feature array *)

Lemma health_flags_count_length (flags : list pyval) :
  health_flags_count_of flags = Z.of_nat (length flags).
Proof. now destruct flags. Qed.

Lemma truediv_rounds (a b : Z) :
  b <> 0 ->
  truediv a b =
  match binary64 (inject_Z a / inject_Z b) with
  | FFin q => Ok q
  | _ => Raise OverflowError
  end.
Proof.
  intros Hb. unfold truediv. now destruct (Z.eqb_spec b 0).
Qed.

(** True division overflows only when the quotient is at least
    2^1024 - 2^970 in size. *)
Lemma truediv_overflow (a b : Z) :
  b <> 0 -> truediv a b = Raise OverflowError ->
  (pow2 1024 - pow2 970 <= inject_Z a / inject_Z b)%Q \/
  (inject_Z a / inject_Z b <= - (pow2 1024 - pow2 970))%Q.
Proof.
  intros Hb. rewrite truediv_rounds by exact Hb.
  pose proof (binary64_nearest (inject_Z a / inject_Z b)) as H.
  destruct (binary64 _) as [ | [|] | r]; try discriminate; tauto.
Qed.

(** The quotient true division returns is a float nearest to the exact
    quotient. *)
Lemma truediv_nearest (a b : Z) (q : Q) :
  b <> 0 -> truediv a b = Ok q -> nearest_float (inject_Z a / inject_Z b) q.
Proof.
  intros Hb. rewrite truediv_rounds by exact Hb.
  pose proof (binary64_nearest (inject_Z a / inject_Z b)) as H.
  destruct (binary64 _) as [ | [|] | r]; try discriminate.
  now intros [= <-].
Qed.

(** A quotient of integers below 2^53 in size never overflows. *)
Lemma truediv_small (a b : Z) :
  1 <= b -> - 2 ^ 53 < a < 2 ^ 53 ->
  exists q, truediv a b = Ok q.
Proof.
  intros Hb Ha. rewrite truediv_rounds by lia.
  destruct (binary64_symmetric_range (inject_Z a / inject_Z b) (2 ^ 53 - 1))
    as (r & -> & _); [|lia|now exists r].
  assert (Hbq : (0 < inject_Z b)%Q)
    by (change 0%Q with (inject_Z 0); rewrite <- Zlt_Qlt; lia).
  split.
  - apply Qle_shift_div_l; [exact Hbq|].
    rewrite <- inject_Z_opp, <- inject_Z_mult, <- Zle_Qle. nia.
  - apply Qle_shift_div_r; [exact Hbq|].
    rewrite <- inject_Z_mult, <- Zle_Qle. nia.
Qed.

Lemma recency_score_exact_range (ds : Z) :
  0 <= ds -> (0 <= FeatureSpec.recencyScore ds <= 1)%Q.
Proof.
  intros Hds. unfold FeatureSpec.recencyScore. split.
  - apply Qle_shift_div_l; [reflexivity|]. rewrite Qmult_0_l.
    change 0%Q with (inject_Z 0). rewrite <- Zle_Qle. lia.
  - apply Qle_shift_div_r; [reflexivity|]. rewrite Qmult_1_l.
    change 90%Q with (inject_Z 90). rewrite <- Zle_Qle. lia.
Qed.

(** The recency division returns for every day count that is not
    negative, with the exact quotient rounded. *)
Lemma recency_division (ds : Z) :
  0 <= ds ->
  exists rec,
    truediv (Z.max 0 (90 - ds)) 90 = Ok rec /\
    binary64 (FeatureSpec.recencyScore ds) = FFin rec /\
    (0 <= rec <= 1)%Q.
Proof.
  intros Hds. rewrite truediv_rounds by lia.
  destruct (binary64_range (FeatureSpec.recencyScore ds) 1) as (r & Hr & Hrange).
  - apply recency_score_exact_range, Hds.
  - lia.
  - unfold FeatureSpec.recencyScore in Hr.
    change (inject_Z 90) with 90%Q. rewrite Hr. now exists r.
Qed.

Lemma features_of_record (d : DonorData) (n : Z) (rec : Q) :
  truediv (Z.max 0 (90 - n)) 90 = Ok rec ->
  features_of (get (age d) 30) (get (donationFrequency d) 0) n
    (region_factor_of (get (region d) "unknown"%string))
    (health_flags_count_of (get (healthFlags d) []))
  = let* rate := donation_rate_of d in Ok [feature_row d n rate rec].
Proof.
  intros Hrec. unfold features_of, donation_rate_of.
  destruct (truediv (get (donationFrequency d) 0) _) as [rate|e]; simpl;
    [|reflexivity].
  rewrite Hrec; simpl. now rewrite health_flags_count_length.
Qed.

Section Arbitration.

Variable now : Z.
Variable fromisoformat : string -> result datetime.
Variable st : Artifacts.

(** [chosen_score] once the day count and the recency score are known:
    the donation rate is computed, and the feature array goes through the
    scaler and the choice of the scorer. *)
Lemma chosen_score_unfold (d : DonorData) (n : Z) (rec : Q) :
  calculate_days_since_last_donation now fromisoformat (lastDonationDate d) = Ok n ->
  truediv (Z.max 0 (90 - n)) 90 = Ok rec ->
  chosen_score now fromisoformat st d =
  let* rate := donation_rate_of d in
  score_of_features st [feature_row d n rate rec]
    (get (age d) 30) (get (donationFrequency d) 0) n.
Proof.
  intros Hn Hrec. unfold chosen_score. rewrite Hn; simpl.
  rewrite (features_of_record d n rec Hrec).
  now destruct (donation_rate_of d).
Qed.

(** The day count and the recency score of a record always exist. *)
Lemma days_and_recency (d : DonorData) :
  exists n rec,
    calculate_days_since_last_donation now fromisoformat (lastDonationDate d) = Ok n /\
    0 <= n /\
    truediv (Z.max 0 (90 - n)) 90 = Ok rec /\
    binary64 (FeatureSpec.recencyScore n) = FFin rec /\
    (0 <= rec <= 1)%Q.
Proof.
  destruct (days_since_total now fromisoformat (lastDonationDate d)) as (n & Hn & Hn0).
  destruct (recency_division n Hn0) as (rec & Hrec & Hb & Hr).
  now exists n, rec.
Qed.

(** When the donation rate overflows nothing is scored. *)
Lemma chosen_score_overflow (d : DonorData) (e : exn) :
  donation_rate_of d = Raise e ->
  chosen_score now fromisoformat st d = Raise e.
Proof.
  intros He. destruct (days_and_recency d) as (n & rec & Hn & _ & Hrec & _).
  rewrite (chosen_score_unfold d n rec Hn Hrec). now rewrite He.
Qed.

End Arbitration.

(** C3. For every donor record the feature array, when it is built, has
    one row of exactly 7 components, in the order age, donationFrequency,
    daysSinceLastDonation, regionFactor, healthFlagsCount (the number of
    health flags), donationRate, recencyScore; it is not built only when
    the donation rate is too large for a float. This array is the one
    handed to the scaler, or to the model when no scaler is loaded. *)
Theorem C3_feature_vector_order (now : Z)
    (fromisoformat : string -> result datetime) (d : DonorData) :
  let age := get (age d) 30 in
  let donationFrequency := get (donationFrequency d) 0 in
  let regionFactor := region_factor_of (get (region d) "unknown"%string) in
  let healthFlags := get (healthFlags d) [] in
  exists (daysSince : Z) (recencyScore : Q),
    calculate_days_since_last_donation now fromisoformat (lastDonationDate d)
      = Ok daysSince /\
    truediv (Z.max 0 (90 - daysSince)) 90 = Ok recencyScore /\
    let row (donationRate : Q) :=
      [ PInt age; PInt donationFrequency; PInt daysSince;
        PFlt (FFin regionFactor); PInt (Z.of_nat (length healthFlags));
        PFlt (FFin donationRate); PFlt (FFin recencyScore) ] in
    (forall donationRate, length (row donationRate) = 7%nat) /\
    features_of age donationFrequency daysSince regionFactor
      (health_flags_count_of healthFlags)
    = match truediv donationFrequency (Z.max (age - 18) 1) with
      | Ok donationRate => Ok [row donationRate]
      | Raise e => Raise e
      end /\
    (truediv donationFrequency (Z.max (age - 18) 1) = Raise OverflowError \/
     exists donationRate,
       truediv donationFrequency (Z.max (age - 18) 1) = Ok donationRate) /\
    (forall st : Artifacts,
        chosen_score now fromisoformat st d =
        match truediv donationFrequency (Z.max (age - 18) 1) with
        | Ok donationRate =>
            score_of_features st [row donationRate] age donationFrequency daysSince
        | Raise e => Raise e
        end) /\
    (forall (s : Scaler) (m : option Model) (features : ndarray),
        scaler_truth s = Ok true ->
        score_of_features {| model := m; scaler := Some s |} features
          age donationFrequency daysSince =
        let* scaled := transform s features in
        score_of_features {| model := m; scaler := None |} scaled
          age donationFrequency daysSince) /\
    (forall (m : Model) (features : ndarray),
        model_truth m = Ok true ->
        score_of_features {| model := Some m; scaler := None |} features
          age donationFrequency daysSince =
        try_except (model_score m features)
          (Ok (PInt (calculate_fallback_score age donationFrequency daysSince)))).
Proof.
  intros age0 freq rf flags.
  destruct (days_and_recency now fromisoformat d) as (n & rec & Hn & _ & Hrec & _).
  exists n, rec. split; [exact Hn|]. split; [exact Hrec|]. cbv zeta.
  split; [reflexivity|].
  split; [apply (features_of_record d n rec Hrec)|].
  split.
  { unfold age0, freq. rewrite truediv_rounds by lia.
    destruct (binary64 _); eauto. }
  split.
  { intros st. rewrite (chosen_score_unfold now fromisoformat st d n rec Hn Hrec).
    reflexivity. }
  split.
  - intros s m features Hs. unfold score_of_features; simpl.
    rewrite Hs; simpl. now destruct (transform s features).
  - intros m features Hm. unfold score_of_features; simpl.
    now rewrite Hm.
Qed.

(** The array of the sample donor, handed to a model without a scaler. *)
Lemma C3_feature_vector_witness :
  exists recencyScore donationRate : Q,
    chosen_score Sample.now Sample.fromisoformat
      {| model := Some Sample.constant_model; scaler := None |}
      (Sample.donor PyNone)
    = try_except
        (model_score Sample.constant_model
           [[ PInt 30; PInt 5; PInt 365; PFlt (FFin 0.3); PInt 0;
              PFlt (FFin donationRate); PFlt (FFin recencyScore) ]])
        (Ok (PInt (calculate_fallback_score 30 5 365))).
Proof.
  destruct (C3_feature_vector_order Sample.now Sample.fromisoformat
              (Sample.donor PyNone))
    as (n & rec & Hn & _ & _ & _ & _ & Hchosen & _ & Hmodel).
  injection Hn as <-.
  exists rec.
  destruct (truediv_small 5 (Z.max (30 - 18) 1)) as (rate & Hrate); [lia|lia|].
  exists rate.
  rewrite Hchosen. simpl get. rewrite Hrate.
  apply (Hmodel Sample.constant_model). reflexivity.
Defined.

(** *** FeatureExtractor: the derived features *)

Lemma donation_rate_rounds (age f : Z) :
  truediv f (Z.max (age - 18) 1) =
  match binary64 (FeatureSpec.donationRate age f) with
  | FFin rate => Ok rate
  | _ => Raise OverflowError
  end.
Proof. unfold FeatureSpec.donationRate. apply truediv_rounds. lia. Qed.

(** C7. For every donor record and every day count that is not negative:
    the divisor of the donation rate is [max(age - 18, 1)], at least 1 for
    every age, so the division never divides by zero or by a negative
    number, and the donation rate is the float nearest to
    [donationFrequency / max(age - 18, 1)] (the division raises only when
    that is too large for a float, 2^1024 - 2^970 or more in size, so
    never for a frequency below 2^53); the recency score is the float
    nearest to [max(0, 90 - daysSince) / 90], which is 1 at 0 days, 0 from
    90 days on, and never negative. *)
Theorem C7_derived_features (d : DonorData) (daysSince : Z) :
  0 <= daysSince ->
  let age := get (age d) 30 in
  let donationFrequency := get (donationFrequency d) 0 in
  let regionFactor := region_factor_of (get (region d) "unknown"%string) in
  let healthFlagsCount := health_flags_count_of (get (healthFlags d) []) in
  1 <= Z.max (age - 18) 1 /\
  truediv donationFrequency (Z.max (age - 18) 1) =
    match binary64 (inject_Z donationFrequency / inject_Z (Z.max (age - 18) 1)) with
    | FFin donationRate => Ok donationRate
    | _ => Raise OverflowError
    end /\
  truediv donationFrequency (Z.max (age - 18) 1) <> Raise ZeroDivisionError /\
  (truediv donationFrequency (Z.max (age - 18) 1) = Raise OverflowError ->
   (pow2 1024 - pow2 970
    <= inject_Z donationFrequency / inject_Z (Z.max (age - 18) 1))%Q \/
   (inject_Z donationFrequency / inject_Z (Z.max (age - 18) 1)
    <= - (pow2 1024 - pow2 970))%Q) /\
  (- 2 ^ 53 < donationFrequency < 2 ^ 53 ->
   exists donationRate,
     truediv donationFrequency (Z.max (age - 18) 1) = Ok donationRate) /\
  (forall donationRate,
      truediv donationFrequency (Z.max (age - 18) 1) = Ok donationRate ->
      nearest_float
        (inject_Z donationFrequency / inject_Z (Z.max (age - 18) 1))
        donationRate) /\
  exists recencyScore : Q,
    truediv (Z.max 0 (90 - daysSince)) 90 = Ok recencyScore /\
    binary64 (inject_Z (Z.max 0 (90 - daysSince)) / 90) = FFin recencyScore /\
    nearest_float (inject_Z (Z.max 0 (90 - daysSince)) / 90) recencyScore /\
    (0 <= recencyScore <= 1)%Q /\
    (daysSince = 0 -> (recencyScore == 1)%Q) /\
    (90 <= daysSince -> (recencyScore == 0)%Q) /\
    features_of age donationFrequency daysSince regionFactor healthFlagsCount
    = match truediv donationFrequency (Z.max (age - 18) 1) with
      | Ok donationRate =>
          Ok [[ PInt age; PInt donationFrequency; PInt daysSince;
                PFlt (FFin regionFactor); PInt healthFlagsCount;
                PFlt (FFin donationRate); PFlt (FFin recencyScore) ]]
      | Raise e => Raise e
      end.
Proof.
  intros Hds age0 freq rf hc.
  split; [lia|].
  split; [apply truediv_rounds; lia|].
  split.
  { rewrite truediv_rounds by lia. destruct (binary64 _); discriminate. }
  split; [apply truediv_overflow; lia|].
  split; [intros Hf; apply truediv_small; lia|].
  split; [intros rate; apply truediv_nearest; lia|].
  destruct (recency_division daysSince Hds) as (rec & Hrec & Hb & Hr).
  exists rec. split; [exact Hrec|]. split; [exact Hb|].
  split; [apply (truediv_nearest _ 90 rec ltac:(lia) Hrec)|].
  split; [exact Hr|].
  split; [|split].
  - intros ->. vm_compute in Hb. injection Hb as <-. reflexivity.
  - intros H90. unfold FeatureSpec.recencyScore in Hb.
    replace (Z.max 0 (90 - daysSince)) with 0 in Hb by lia.
    rewrite binary64_zero in Hb by reflexivity.
    injection Hb as <-. reflexivity.
  - subst age0 freq rf hc.
    rewrite (features_of_record d daysSince rec Hrec).
    unfold donation_rate_of.
    destruct (truediv (get (donationFrequency d) 0) _); simpl; [|reflexivity].
    now rewrite health_flags_count_length.
Qed.

(** A 17-year-old donor with four donations: the divisor is 1 and the
    rate 4; at 0 days the recency score is 1. *)
Lemma C7_derived_features_witness :
  (exists donationRate : Q,
      truediv 4 (Z.max (17 - 18) 1) = Ok donationRate /\
      (donationRate == 4)%Q) /\
  exists recencyScore : Q,
    truediv (Z.max 0 (90 - 0)) 90 = Ok recencyScore /\
    (recencyScore == 1)%Q.
Proof.
  destruct (C7_derived_features
              {| age := Some 17; donationFrequency := Some 4;
                 lastDonationDate := PyNone; region := Some "south"%string;
                 healthFlags := None; donorId := PyNone |} 0 ltac:(lia))
    as (_ & Hrate & _ & _ & _ & _ & rec & Hrec & _ & _ & _ & Hzero & _).
  split.
  - vm_compute in Hrate. eexists. split; [exact Hrate | reflexivity].
  - exists rec. split; [exact Hrec | apply Hzero; reflexivity].
Defined.

(** *** ScoreArbiter: clamping and rounding *)

Lemma int_in_0_100 (z : Z) : 0 <= z <= 100 -> in_0_100 (PInt z).
Proof.
  intros H. unfold in_0_100, Qle; simpl. lia.
Qed.

Lemma fallback_in_0_100 (age f d : Z) :
  in_0_100 (PInt (calculate_fallback_score age f d)).
Proof.
  apply int_in_0_100. unfold calculate_fallback_score; lia.
Qed.

(** [max(0, min(100, x))] of a finite float. *)
Lemma clamp_finite (q : Q) :
  py_max (PInt 0) (py_min (PInt 100) (PFlt (FFin q))) =
  if Qle_bool (inject_Z 100) q then PInt 100
  else if Qle_bool q (inject_Z 0) then PInt 0
  else PFlt (FFin q).
Proof.
  unfold py_max, py_min, num_lt; simpl.
  destruct (Qle_bool (inject_Z 100) q); simpl; [reflexivity|].
  now destruct (Qle_bool q (inject_Z 0)).
Qed.

(** [max(0, min(100, x))] is 0, 100 or a float strictly between, also
    for NaN and the infinities. *)
Lemma clamp_in_0_100 (x : pyfloat) :
  in_0_100 (py_max (PInt 0) (py_min (PInt 100) (PFlt x))).
Proof.
  destruct x as [ | [|] | q].
  - apply (int_in_0_100 100); lia.
  - apply (int_in_0_100 0); lia.
  - apply (int_in_0_100 100); lia.
  - rewrite clamp_finite.
    destruct (Qle_bool (inject_Z 100) q) eqn:Hhi.
    + apply (int_in_0_100 100); lia.
    + destruct (Qle_bool q (inject_Z 0)) eqn:Hlo.
      * apply (int_in_0_100 0); lia.
      * apply Qle_bool_false_lt in Hhi, Hlo.
        unfold in_0_100; simpl.
        change (inject_Z 100) with 100%Q in Hhi.
        change (inject_Z 0) with 0%Q in Hlo. lra.
Qed.

(** Rounding a float of [0,100] to two decimals: the product with 100 is
    a float of [0,10000], its nearest integer [k] lies in the same
    range, and the result is the float nearest to [k / 100]. *)
Lemma float_round2_steps (q : Q) :
  (0 <= q <= 100)%Q ->
  exists (a : Q) (k : Z) (r : Q),
    float_mul_int (FFin q) 100 = FFin a /\
    k = rint a /\
    (inject_Z k - (1 # 2) <= a <= inject_Z k + (1 # 2))%Q /\
    0 <= k <= 10000 /\
    float_round2 (FFin q) = binary64 (inject_Z k / 100) /\
    binary64 (inject_Z k / 100) = FFin r /\
    (0 <= r <= 100)%Q.
Proof.
  intros Hq. unfold float_round2.
  destruct (binary64_range (q * inject_Z 100) 10000) as (a & Ha & Hrange);
    [|lia|].
  { change (inject_Z 100) with 100%Q. change (inject_Z 10000) with 10000%Q. lra. }
  change (float_mul_int (FFin q) 100) with (binary64 (q * inject_Z 100)).
  rewrite Ha.
  assert (Hk : 0 <= rint a <= 10000).
  { split; [apply rint_lower | apply rint_upper]; apply Hrange. }
  destruct (binary64_range (inject_Z (rint a) / 100) 100) as (r & Hr & Hr100);
    [|lia|].
  { split.
    - apply Qle_shift_div_l; [reflexivity|]. rewrite Qmult_0_l.
      change 0%Q with (inject_Z 0). rewrite <- Zle_Qle. lia.
    - apply Qle_shift_div_r; [reflexivity|].
      change 100%Q with (inject_Z 100).
      rewrite <- inject_Z_mult, <- Zle_Qle. lia. }
  exists a, (rint a), r.
  split; [reflexivity|]. split; [reflexivity|].
  split; [apply rint_near|]. split; [exact Hk|].
  split; [reflexivity|]. split; [exact Hr | exact Hr100].
Qed.

Lemma round2_in_0_100 (n : pynum) : in_0_100 n -> in_0_100 (round2 n).
Proof.
  destruct n as [z | [ | b | q]]; try (intros H; exact H).
  unfold in_0_100 at 1; cbn [to_float]. intros Hq.
  destruct (float_round2_steps q Hq) as (a & k & r & _ & _ & _ & _ & Hf & Hb & Hr).
  unfold in_0_100, round2; cbn [to_float]. now rewrite Hf, Hb.
Qed.

Lemma round2_rounded (n : pynum) :
  in_0_100 n -> rounded_to_hundredths n (round2 n).
Proof.
  destruct n as [z | [ | b | q]].
  - reflexivity.
  - intros [].
  - intros [].
  - unfold in_0_100; cbn [to_float]. intros Hq.
    destruct (float_round2_steps q Hq)
      as (a & k & r & Ha & _ & Hk & Hk' & Hr & Hb & _).
    pose proof (binary64_nearest (q * 100)) as Hna.
    change (float_mul_int (FFin q) 100) with (binary64 (q * 100)) in Ha.
    rewrite Ha in Hna.
    pose proof (binary64_nearest (inject_Z k / 100)) as Hnr.
    rewrite Hb in Hnr.
    exists a, k, r. unfold round2. rewrite Hr, Hb. now repeat split.
Qed.

Section Scores.

Variable now : Z.
Variable fromisoformat : string -> result datetime.
Variable st : Artifacts.

Lemma model_score_in_0_100 (m : Model) (features : ndarray) (c : pynum) :
  model_score m features = Ok c -> in_0_100 c.
Proof.
  unfold model_score. destruct (predict_ m features) as [[|x xs]|e]; simpl;
    try discriminate.
  intros [= <-]. apply clamp_in_0_100.
Qed.

Lemma score_of_features_in_0_100 (features : ndarray) (age f n : Z) (c : pynum) :
  score_of_features st features age f n = Ok c -> in_0_100 c.
Proof.
  unfold score_of_features.
  destruct (match scaler st with Some _ => _ | None => _ end) as [scaled|e];
    simpl; [|discriminate].
  destruct (model st) as [m|]; [|intros [= <-]; apply fallback_in_0_100].
  destruct (model_truth m) as [[|]|e]; simpl; [| |discriminate].
  - destruct (model_score m scaled) as [c'|e] eqn:Hm; simpl.
    + intros [= <-]. eapply model_score_in_0_100, Hm.
    + intros [= <-]. apply fallback_in_0_100.
  - intros [= <-]. apply fallback_in_0_100.
Qed.

Lemma score_of_features_total (features : ndarray) (age f n : Z) :
  scaler_total st -> model_truth_total st ->
  exists c, score_of_features st features age f n = Ok c.
Proof.
  unfold scaler_total, model_truth_total, score_of_features.
  intros Hs Hm.
  assert (Hscaled : exists scaled,
             match scaler st with
             | Some s =>
                 let* scaler_is_true := scaler_truth s in
                 if scaler_is_true then transform s features else Ok features
             | None => Ok features
             end = Ok scaled).
  { destruct (scaler st) as [s|]; [|eauto].
    destruct Hs as [->|(-> & Ht)]; simpl; [eauto|apply Ht]. }
  destruct Hscaled as (scaled & ->); simpl.
  destruct (model st) as [m|]; [|eauto].
  destruct Hm as ([|] & ->); simpl; [|eauto].
  destruct (model_score m scaled); simpl; eauto.
Qed.

Lemma chosen_score_in_0_100 (d : DonorData) (c : pynum) :
  chosen_score now fromisoformat st d = Ok c -> in_0_100 c.
Proof.
  destruct (days_and_recency now fromisoformat d) as (n & rec & Hn & _ & Hrec & _).
  rewrite (chosen_score_unfold now fromisoformat st d n rec Hn Hrec).
  destruct (donation_rate_of d); simpl; [|discriminate].
  apply score_of_features_in_0_100.
Qed.

Lemma chosen_score_total (d : DonorData) (rate : Q) :
  donation_rate_of d = Ok rate -> scaler_total st -> model_truth_total st ->
  exists c, chosen_score now fromisoformat st d = Ok c.
Proof.
  intros Hrate Hs Hm.
  destruct (days_and_recency now fromisoformat d) as (n & rec & Hn & _ & Hrec & _).
  rewrite (chosen_score_unfold now fromisoformat st d n rec Hn Hrec), Hrate.
  now apply score_of_features_total.
Qed.

Lemma predict_availability_inv (d : DonorData) (s : pynum) :
  predict_availability now fromisoformat st d = Ok s ->
  exists c, chosen_score now fromisoformat st d = Ok c /\ s = round2 c.
Proof.
  unfold predict_availability.
  destruct (chosen_score now fromisoformat st d) as [c|e]; simpl; [|discriminate].
  intros [= <-]. now exists c.
Qed.

(** The handler applies the defaults the function applies again. *)
Lemma predict_defaults (data : DonorData) :
  predict_availability now fromisoformat st
    {| age := Some (get (age data) 30);
       donationFrequency := Some (get (donationFrequency data) 0);
       lastDonationDate := lastDonationDate data;
       region := Some (get (region data) "unknown"%string);
       healthFlags := Some (get (healthFlags data) []);
       donorId := PyNone |}
  = predict_availability now fromisoformat st data.
Proof. reflexivity. Qed.

Lemma days_ago_days_since (k : Z) (v : pyval) :
  0 <= k -> days_ago now fromisoformat k v ->
  calculate_days_since_last_donation now fromisoformat v = Ok k.
Proof.
  intros Hk Hv.
  assert (Hdays : forall d,
             k * day_us <= now - wall d < (k + 1) * day_us ->
             Z.max 0 (days (now - wall d)) = k).
  { intros d Hd. unfold days, day_us in *.
    assert (((now - wall d) / 86400000000) = k); [|lia].
    symmetry. apply (Z.div_unique_pos _ _ _ (now - wall d - k * 86400000000)); lia. }
  destruct v; simpl in Hv; try contradiction.
  - destruct Hv as (Hs & d & Hp & Hd).
    rewrite (days_since_str now fromisoformat s Hs), Hp. now rewrite Hdays.
  - rewrite days_since_datetime. now rewrite Hdays.
Qed.

End Scores.

(** C8. Whatever the loaded artifacts do, the score [predict_availability]
    returns, and so the [availabilityScore] of every 200 response, lies
    in [0,100] and is the chosen score (the clamped model output or the
    heuristic score, itself in [0,100]) rounded to two decimals by
    [round(score, 2)]: an integer score is returned as it is, a float
    score [c] as the float nearest to [k / 100], [k] being an integer
    nearest to the float [c * 100]. A score is returned whenever the
    donation rate fits a float and neither the scaler nor the truth test
    of the model raises. *)
Theorem C8_score_in_range_and_rounded (now : Z)
    (fromisoformat : string -> result datetime) (st : Artifacts) :
  (forall (d : DonorData) (s : pynum),
      predict_availability now fromisoformat st d = Ok s ->
      in_0_100 s /\
      exists c, chosen_score now fromisoformat st d = Ok c /\ in_0_100 c /\
                s = round2 c /\ rounded_to_hundredths c s) /\
  (forall (data : DonorData) (body : Prediction),
      predict now fromisoformat st (Ok (JsonObject data)) = Http200 body ->
      in_0_100 (availabilityScore body)) /\
  (forall (d : DonorData) (rate : Q),
      donation_rate_of d = Ok rate ->
      scaler_total st -> model_truth_total st ->
      exists s, predict_availability now fromisoformat st d = Ok s).
Proof.
  assert (Hscore : forall d s,
             predict_availability now fromisoformat st d = Ok s ->
             in_0_100 s /\
             exists c, chosen_score now fromisoformat st d = Ok c /\ in_0_100 c /\
                       s = round2 c /\ rounded_to_hundredths c s).
  { intros d s Hs.
    destruct (predict_availability_inv now fromisoformat st d s Hs) as (c & Hc & ->).
    pose proof (chosen_score_in_0_100 now fromisoformat st d c Hc) as Hr.
    split; [now apply round2_in_0_100|].
    exists c. split; [exact Hc|]. split; [exact Hr|].
    split; [reflexivity | now apply round2_rounded]. }
  split; [exact Hscore|]. split.
  - intros data body. unfold predict. rewrite predict_defaults.
    destruct (predict_availability _ _ _ _) as [s|e] eqn:Hs; [|discriminate].
    destruct (match model st with Some _ => _ | None => _ end); [|discriminate].
    intros [= <-]; simpl. apply (Hscore _ _ Hs).
  - intros d rate Hrate Hs Hm.
    destruct (chosen_score_total now fromisoformat st d rate Hrate Hs Hm) as (c & Hc).
    exists (round2 c). unfold predict_availability. now rewrite Hc.
Qed.

(** With a model that predicts the float 0.87654 the score is the float
    87.65; with one that predicts the float 0.00545 it is the float
    0.55; with one that predicts the float 0.00125, whose product with
    100 is 0.125, it is the float 0.12: the half goes to the even
    neighbour. *)
Lemma C8_score_witness :
  let st := {| model := Some Sample.constant_model;
               scaler := Some Sample.identity_scaler |} in
  predict_availability Sample.now Sample.fromisoformat st (Sample.donor PyNone)
    = Ok (PFlt (binary64 87.65)) /\
  in_0_100 (PFlt (binary64 87.65)) /\
  predict_availability Sample.now Sample.fromisoformat
    {| model := Some (Fixture.model_of (binary64 0.00545)); scaler := None |}
    (Sample.donor PyNone)
    = Ok (PFlt (binary64 0.55)) /\
  predict_availability Sample.now Sample.fromisoformat
    {| model := Some (Fixture.model_of (binary64 0.00125)); scaler := None |}
    (Sample.donor PyNone)
    = Ok (PFlt (binary64 0.12)).
Proof.
  intros st.
  assert (H : predict_availability Sample.now Sample.fromisoformat st
                (Sample.donor PyNone) = Ok (PFlt (binary64 87.65)))
    by (vm_compute; reflexivity).
  split; [exact H|].
  destruct (C8_score_in_range_and_rounded Sample.now Sample.fromisoformat st)
    as (Hs & _ & _).
  split; [apply (Hs _ _ H) | split; vm_compute; reflexivity].
Defined.

(** *** The two scoring paths *)

Section Paths.

Variable now : Z.
Variable fromisoformat : string -> result datetime.
Variable st : Artifacts.

(** The heuristic path: no model, and a scaler that does not raise. *)
Lemma heuristic_score_of_features (features : ndarray) (age f n : Z) :
  model st = None -> scaler_total st ->
  score_of_features st features age f n
  = Ok (PInt (calculate_fallback_score age f n)).
Proof.
  intros Hm Hs. unfold score_of_features, scaler_total in *. rewrite Hm.
  destruct (scaler st) as [s|]; [|reflexivity].
  destruct Hs as [->|(-> & Ht)]; simpl; [reflexivity|].
  now destruct (Ht features) as (scaled & ->).
Qed.

Lemma heuristic_path (d : DonorData) (n : Z) :
  model st = None -> scaler_total st ->
  calculate_days_since_last_donation now fromisoformat (lastDonationDate d) = Ok n ->
  predict_availability now fromisoformat st d
  = match donation_rate_of d with
    | Ok _ => Ok (PInt (calculate_fallback_score (get (age d) 30)
                          (get (donationFrequency d) 0) n))
    | Raise e => Raise e
    end.
Proof.
  intros Hm Hs Hn.
  destruct (days_and_recency now fromisoformat d) as (n' & rec & Hn' & _ & Hrec & _).
  assert (n' = n) as -> by congruence.
  unfold predict_availability.
  rewrite (chosen_score_unfold now fromisoformat st d n rec Hn Hrec).
  destruct (donation_rate_of d); simpl; [|reflexivity].
  now rewrite heuristic_score_of_features.
Qed.

(** A model whose truth test is true and whose [predict] fails. *)
Lemma failed_model_score_of_features (m : Model) (features : ndarray)
    (age f n : Z) :
  model st = Some m -> scaler_total st -> model_truth m = Ok true ->
  (forall scaled,
      (exists e, predict_ m scaled = Raise e) \/ predict_ m scaled = Ok []) ->
  score_of_features st features age f n
  = Ok (PInt (calculate_fallback_score age f n)).
Proof.
  intros Hm Hs Ht Hfail. unfold score_of_features, scaler_total in *.
  rewrite Hm, Ht.
  assert (Hscore : forall scaled,
             try_except (model_score m scaled)
               (Ok (PInt (calculate_fallback_score age f n)))
             = Ok (PInt (calculate_fallback_score age f n))).
  { intros scaled. unfold model_score.
    now destruct (Hfail scaled) as [(e & ->)| ->]. }
  destruct (scaler st) as [s|]; [|simpl; apply Hscore].
  destruct Hs as [->|(-> & Htr)]; simpl; [apply Hscore|].
  destruct (Htr features) as (scaled & ->); simpl. apply Hscore.
Qed.

End Paths.

(** *** End to end *)

(** C9. For the request [{age: 30, donationFrequency: 5, lastDonationDate:
    75 days ago, region: "south", healthFlags: []}] with no model loaded
    (and a scaler, if one is loaded, that does not raise), the response is
    a 200 with [availabilityScore] 95 = 50 + 15 + 15 + 15, [model_used]
    "fallback" and [confidence] 0.70. *)
Theorem C9_end_to_end_fallback (now : Z)
    (fromisoformat : string -> result datetime) (st : Artifacts)
    (last id : pyval) :
  model st = None ->
  scaler_total st ->
  days_ago now fromisoformat 75 last ->
  predict now fromisoformat st
    (Ok (JsonObject
           {| age := Some 30;
              donationFrequency := Some 5;
              lastDonationDate := last;
              region := Some "south"%string;
              healthFlags := Some [];
              donorId := id |}))
  = Http200 {| success := true;
               resp_donorId := id;
               availabilityScore := PInt 95;
               confidence := 0.70;
               model_used := "fallback" |} /\
  95 = 50 + 15 + 15 + 15 /\
  calculate_fallback_score 30 5 75 = 95.
Proof.
  intros Hm Hs Hlast.
  split; [|split; reflexivity].
  pose proof (days_ago_days_since now fromisoformat 75 last ltac:(lia) Hlast) as Hn.
  unfold predict. rewrite predict_defaults.
  match goal with
  | |- context [predict_availability _ _ _ ?d] =>
      rewrite (heuristic_path now fromisoformat st d 75 Hm Hs Hn)
  end.
  unfold donation_rate_of;
    cbv [get default from_option Datatypes.id age donationFrequency].
  destruct (truediv_small 5 (Z.max (30 - 18) 1)) as (rate & ->); [lia|lia|].
  now rewrite Hm.
Qed.

(** The request of the example, dated 2024-01-01 and served on 2024-03-16
    with neither artifact loaded. *)
Lemma C9_end_to_end_witness :
  predict Sample.now Sample.fromisoformat {| model := None; scaler := None |}
    (Ok (JsonObject (Sample.donor (PyStr "2024-01-01T00:00:00Z"))))
  = Http200 {| success := true;
               resp_donorId := PyStr "d-1";
               availabilityScore := PInt 95;
               confidence := 0.70;
               model_used := "fallback" |}.
Proof.
  apply (C9_end_to_end_fallback Sample.now Sample.fromisoformat
           {| model := None; scaler := None |}
           (PyStr "2024-01-01T00:00:00Z") (PyStr "d-1")).
  - reflexivity.
  - exact I.
  - split; [discriminate|].
    exists Sample.new_year. split; [reflexivity|].
    unfold Sample.now, Sample.new_year, day_us; simpl. lia.
Defined.

(** *** What the response reports when the model path fails *)

(** C1. When a model is loaded and its [predict] raises, the score of the
    response is the heuristic score, yet the response reports
    [model_used = "trained"] and [confidence = 0.85]: the two fields follow
    the truth test of the global [model], not the path that produced the
    score. This holds for every request that is answered (one whose
    donation rate overflows is answered 500), and in particular for
    [{age: 30, donationFrequency: 5, region: "south"}], scored 75. *)
Theorem C1_failed_predict_reported_as_trained (now : Z)
    (fromisoformat : string -> result datetime) (data : DonorData) :
  let st := {| model := Some Sample.failing_model; scaler := None |} in
  (exists daysSince : Z,
      calculate_days_since_last_donation now fromisoformat (lastDonationDate data)
        = Ok daysSince /\
      predict now fromisoformat st (Ok (JsonObject data))
      = match truediv (get (donationFrequency data) 0)
                (Z.max (get (age data) 30 - 18) 1) with
        | Ok _ =>
            Http200 {| success := true;
                       resp_donorId := donorId data;
                       availabilityScore :=
                         PInt (calculate_fallback_score (get (age data) 30)
                                 (get (donationFrequency data) 0) daysSince);
                       confidence := 0.85;
                       model_used := "trained" |}
        | Raise e => Http500 e
        end) /\
  predict now fromisoformat st
    (Ok (JsonObject
           {| age := Some 30; donationFrequency := Some 5;
              lastDonationDate := PyNone; region := Some "south"%string;
              healthFlags := None; donorId := PyNone |}))
  = Http200 {| success := true;
               resp_donorId := PyNone;
               availabilityScore := PInt 75;
               confidence := 0.85;
               model_used := "trained" |}.
Proof.
  intros st.
  assert (Hgen : forall data,
    exists daysSince : Z,
      calculate_days_since_last_donation now fromisoformat (lastDonationDate data)
        = Ok daysSince /\
      predict now fromisoformat st (Ok (JsonObject data))
      = match donation_rate_of data with
        | Ok _ =>
            Http200 {| success := true;
                       resp_donorId := donorId data;
                       availabilityScore :=
                         PInt (calculate_fallback_score (get (age data) 30)
                                 (get (donationFrequency data) 0) daysSince);
                       confidence := 0.85;
                       model_used := "trained" |}
        | Raise e => Http500 e
        end).
  { intros data0.
    destruct (days_and_recency now fromisoformat data0)
      as (n & rec & Hn & _ & Hrec & _).
    exists n. split; [exact Hn|].
    unfold predict. rewrite predict_defaults. unfold predict_availability.
    rewrite (chosen_score_unfold now fromisoformat st data0 n rec Hn Hrec).
    destruct (donation_rate_of data0) as [rate|e]; cbn [bind]; [|reflexivity].
    rewrite (failed_model_score_of_features st Sample.failing_model);
      [reflexivity|reflexivity|exact I|reflexivity|].
    intros scaled. left. now exists ValueError. }
  split; [apply Hgen|].
  destruct (Hgen {| age := Some 30; donationFrequency := Some 5;
                    lastDonationDate := PyNone; region := Some "south"%string;
                    healthFlags := None; donorId := PyNone |})
    as (n & Hn & ->).
  injection Hn as <-.
  unfold donation_rate_of;
    cbv [get default from_option Datatypes.id age donationFrequency].
  now destruct (truediv_small 5 (Z.max (30 - 18) 1)) as (rate & ->); [lia|lia|].
Qed.

(** C2. An error raised by the scaler's [transform] is not caught by
    [predict_availability]: it escapes, whether or not a model is loaded,
    and the handler answers 500; only a failure of the model's [predict]
    is caught and replaced by the heuristic score. This holds for every
    request whose feature array is built (a donation rate that overflows
    raises before the scaler is called), and in particular for
    [{age: 30}]. *)
Theorem C2_transform_error_escapes (now : Z)
    (fromisoformat : string -> result datetime) (m : option Model)
    (data : DonorData) :
  let st := {| model := m; scaler := Some Sample.failing_scaler |} in
  let rate := truediv (get (donationFrequency data) 0)
                (Z.max (get (age data) 30 - 18) 1) in
  predict_availability now fromisoformat st data
  = match rate with
    | Ok _ => Raise ValueError
    | Raise e => Raise e
    end /\
  predict now fromisoformat st (Ok (JsonObject data))
  = Http500 match rate with
            | Ok _ => ValueError
            | Raise e => e
            end /\
  (exists daysSince : Z,
      calculate_days_since_last_donation now fromisoformat (lastDonationDate data)
        = Ok daysSince /\
      predict_availability now fromisoformat
        {| model := Some Sample.failing_model; scaler := None |} data
      = match rate with
        | Ok _ =>
            Ok (PInt (calculate_fallback_score (get (age data) 30)
                        (get (donationFrequency data) 0) daysSince))
        | Raise e => Raise e
        end) /\
  predict now fromisoformat st
    (Ok (JsonObject
           {| age := Some 30; donationFrequency := None;
              lastDonationDate := PyNone; region := None;
              healthFlags := None; donorId := PyNone |}))
  = Http500 ValueError.
Proof.
  intros st rate.
  assert (Hraise : forall d,
             predict_availability now fromisoformat st d
             = match donation_rate_of d with
               | Ok _ => Raise ValueError
               | Raise e => Raise e
               end).
  { intros d.
    destruct (days_and_recency now fromisoformat d) as (n & rec & Hn & _ & Hrec & _).
    unfold predict_availability.
    rewrite (chosen_score_unfold now fromisoformat st d n rec Hn Hrec).
    now destruct (donation_rate_of d). }
  assert (Hpredict : forall d,
             predict now fromisoformat st (Ok (JsonObject d))
             = Http500 match donation_rate_of d with
                       | Ok _ => ValueError
                       | Raise e => e
                       end).
  { intros d. unfold predict. rewrite predict_defaults, Hraise.
    now destruct (donation_rate_of d). }
  split; [apply Hraise|]. split; [apply Hpredict|]. split.
  - destruct (days_and_recency now fromisoformat data)
      as (n & rec & Hn & _ & Hrec & _).
    exists n. split; [exact Hn|].
    unfold predict_availability.
    rewrite (chosen_score_unfold now fromisoformat _ data n rec Hn Hrec).
    fold (donation_rate_of data) in rate. subst rate.
    destruct (donation_rate_of data) as [r|e]; cbn [bind]; [|reflexivity].
    rewrite (failed_model_score_of_features _ Sample.failing_model);
      [reflexivity|reflexivity|exact I|reflexivity|].
    intros scaled. left. now exists ValueError.
  - rewrite Hpredict. unfold donation_rate_of;
      cbv [get default from_option Datatypes.id age donationFrequency].
    now destruct (truediv_small 0 (Z.max (30 - 18) 1)) as (r & ->); [lia|lia|].
Qed.

(** ** Further properties of the service *)

(** *** The heuristic scorer *)

Lemma frequency_adjustment_mono (f1 f2 : Z) :
  f1 <= f2 -> Table.frequency_adjustment f1 <= Table.frequency_adjustment f2.
Proof.
  intros H.
  unfold Table.frequency_adjustment, Table.frequency_rows, Table.first_match,
    Table.in_band; simpl.
  band_cases.
Qed.

Lemma fallback_score_points (age f d : Z) :
  calculate_fallback_score age f d = fallback_points age f d.
Proof.
  unfold calculate_fallback_score.
  pose proof (fallback_points_range age f d). lia.
Qed.

(** X1. A donor with more donations never scores lower: the heuristic
    score is monotone in the donation frequency, for every age and day
    count. *)
Theorem X1_fallback_monotone_in_frequency (age d f1 f2 : Z) :
  f1 <= f2 ->
  calculate_fallback_score age f1 d <= calculate_fallback_score age f2 d.
Proof.
  intros H. rewrite !fallback_score_points, !fallback_points_table.
  pose proof (frequency_adjustment_mono f1 f2 H). lia.
Qed.

Lemma X1_fallback_monotone_witness :
  calculate_fallback_score 30 4 60 <= calculate_fallback_score 30 5 60.
Proof.
  apply (X1_fallback_monotone_in_frequency 30 60 4 5). lia.
Defined.

(** X2. The heuristic score is always one of the eleven values
    50, 55, ..., 100. *)
Theorem X2_fallback_multiple_of_five (age f d : Z) :
  exists k : Z, 10 <= k <= 20 /\ calculate_fallback_score age f d = 5 * k.
Proof.
  rewrite fallback_score_points, fallback_points_table.
  unfold Table.age_adjustment, Table.age_rows, Table.age_otherwise,
    Table.frequency_adjustment, Table.frequency_rows,
    Table.recency_adjustment, Table.recency_rows, Table.first_match.
  repeat match goal with
  | |- context [if Table.in_band ?x ?b then _ else _] =>
      destruct (Table.in_band x b)
  end; cbn [Table.points];
  match goal with
  | |- exists k, _ /\ ?n = _ => exists (n / 5); vm_compute; intuition congruence
  end.
Qed.

(** X3. The top score 100 is given exactly to a donor aged 25 to 45 with
    at least 10 donations whose last donation is 56 to 90 days old; the
    bottom score 50 exactly to a donor younger than 18 or older than 60,
    with no donation counted, whose last donation is more than 180 days
    old. *)
Theorem X3_fallback_extremes (age f d : Z) :
  (calculate_fallback_score age f d = 100 <->
   25 <= age <= 45 /\ 10 <= f /\ 56 <= d <= 90) /\
  (calculate_fallback_score age f d = 50 <->
   (age < 18 \/ 60 < age) /\ f < 1 /\ 180 < d).
Proof.
  rewrite fallback_score_points, fallback_points_table.
  assert (HA : (Table.age_adjustment age = 15 /\ 25 <= age <= 45) \/
               (Table.age_adjustment age = 10 /\
                (18 <= age < 25 \/ 45 < age <= 60)) \/
               (Table.age_adjustment age = 5 /\ (age < 18 \/ 60 < age))).
  { clear. unfold Table.age_adjustment, Table.age_rows, Table.age_otherwise,
      Table.first_match, Table.in_band; simpl. band_cases. }
  assert (HF : (Table.frequency_adjustment f = 20 /\ 10 <= f) \/
               (0 < Table.frequency_adjustment f < 20 /\ 1 <= f < 10) \/
               (Table.frequency_adjustment f = 0 /\ f < 1)).
  { clear. unfold Table.frequency_adjustment, Table.frequency_rows,
      Table.first_match, Table.in_band; simpl. band_cases. }
  assert (HD : (Table.recency_adjustment d = 15 /\ 56 <= d <= 90) \/
               (-5 < Table.recency_adjustment d < 15 /\ (d < 56 \/ 90 < d <= 180)) \/
               (Table.recency_adjustment d = -5 /\ 180 < d)).
  { clear. unfold Table.recency_adjustment, Table.recency_rows,
      Table.first_match, Table.in_band; simpl. band_cases. }
  lia.
Qed.

(** A donor of 30 with 10 donations, the last 60 days ago. *)
Lemma X3_fallback_extremes_witness : calculate_fallback_score 30 10 60 = 100.
Proof.
  apply (proj1 (X3_fallback_extremes 30 10 60)). lia.
Defined.

(** *** The recency calculator *)

Lemma replace_Z_free (s : string) :
  ~ has_char "Z" (replace_char "Z" "+00:00" s).
Proof.
  unfold has_char. induction s as [|a s IH]; simpl; [tauto|].
  destruct (Ascii.eqb_spec a "Z"%char) as [->|Ha]; simpl.
  - intros H. repeat (destruct H as [H|H]; [discriminate|]). now apply IH.
  - intros [H|H]; [congruence | now apply IH].
Qed.

Lemma replace_Z_id (s : string) :
  ~ has_char "Z" s -> replace_char "Z" "+00:00" s = s.
Proof.
  unfold has_char. induction s as [|a s IH]; simpl; [reflexivity|].
  intros H. destruct (Ascii.eqb_spec a "Z"%char) as [->|Ha].
  - exfalso. apply H. now left.
  - f_equal. apply IH. intros Hin. apply H. now right.
Qed.

(** X4. [fromisoformat] is only ever given a string without the letter Z:
    every Z of the input, not only a trailing one, is rewritten to
    "+00:00", and a string without Z is parsed as it is. So two parsers
    that agree on the strings without Z give the same day count for every
    input. *)
Theorem X4_parser_never_sees_Z (now : Z)
    (parse1 parse2 : string -> result datetime) :
  (forall s, ~ has_char "Z" s -> parse1 s = parse2 s) ->
  (forall v, calculate_days_since_last_donation now parse1 v =
             calculate_days_since_last_donation now parse2 v) /\
  (forall s, ~ has_char "Z" (replace_char "Z" "+00:00" s)) /\
  (forall s, ~ has_char "Z" s ->
             calculate_days_since_last_donation now parse1 (PyStr s) =
             if String.eqb s "" then Ok 365
             else match parse1 s with
                  | Ok d => Ok (Z.max 0 (days (now - wall d)))
                  | Raise _ => Ok 365
                  end).
Proof.
  intros Hagree. split; [|split; [exact replace_Z_free|]].
  - intros v. destruct v; try reflexivity.
    destruct (String.eqb_spec s "") as [->|Hs]; [reflexivity|].
    rewrite !days_since_str by exact Hs.
    now rewrite (Hagree _ (replace_Z_free s)).
  - intros s Hs. destruct (String.eqb_spec s "") as [->|Hne]; [reflexivity|].
    now rewrite days_since_str, replace_Z_id.
Qed.

(** A parser that also accepts the bare string "Z" changes nothing. *)
Lemma X4_parser_witness :
  calculate_days_since_last_donation Sample.now Sample.fromisoformat (PyStr "Z")
  = calculate_days_since_last_donation Sample.now
      (fun s => if String.eqb s "Z" then Ok Sample.new_year
                else Sample.fromisoformat s) (PyStr "Z").
Proof.
  refine (proj1 (X4_parser_never_sees_Z Sample.now Sample.fromisoformat
                   (fun s => if String.eqb s "Z" then Ok Sample.new_year
                             else Sample.fromisoformat s) _) (PyStr "Z")).
  intros s Hs. destruct (String.eqb_spec s "Z") as [->|_]; [|reflexivity].
  exfalso. apply Hs. left. reflexivity.
Defined.

(** X5. For a date given as a native datetime, or as a string that
    parses: the UTC offset is dropped, not applied, so only the wall-clock
    reading counts; a date in the future or less than a day old counts as
    0 days; and the count never decreases as the clock advances. *)
Theorem X5_days_since_of_timestamp (now : Z)
    (fromisoformat : string -> result datetime) (v : pyval) (d : datetime) :
  v = PyDatetime d \/
  (exists s, v = PyStr s /\ s <> ""%string /\
             fromisoformat (replace_char "Z" "+00:00" s) = Ok d) ->
  (forall offset,
      calculate_days_since_last_donation now fromisoformat v =
      calculate_days_since_last_donation now fromisoformat
        (PyDatetime (Datetime (wall d) offset))) /\
  (now - wall d < day_us ->
   calculate_days_since_last_donation now fromisoformat v = Ok 0) /\
  (forall later, now <= later ->
      exists n n',
        calculate_days_since_last_donation now fromisoformat v = Ok n /\
        calculate_days_since_last_donation later fromisoformat v = Ok n' /\
        n <= n').
Proof.
  intros Hv.
  assert (Hval : forall t, calculate_days_since_last_donation t fromisoformat v
                           = Ok (Z.max 0 (days (t - wall d)))).
  { intros t. destruct Hv as [->|(s & -> & Hs & Hp)].
    - apply days_since_datetime.
    - now rewrite days_since_str, Hp. }
  split; [|split].
  - intros offset. now rewrite Hval, days_since_datetime.
  - intros Hlt. rewrite Hval. f_equal. unfold days, day_us in *.
    assert ((now - wall d) / 86400000000 < 1)
      by (apply Z.div_lt_upper_bound; lia).
    lia.
  - intros later Hle. eexists _, _. rewrite !Hval.
    split; [reflexivity|split; [reflexivity|]].
    unfold days.
    assert ((now - wall d) / 86400000000 <= (later - wall d) / 86400000000)
      by (apply Z.div_le_mono; lia).
    lia.
Qed.

(** New Year's Day 2024, read twelve hours later. *)
Lemma X5_days_since_witness :
  calculate_days_since_last_donation (738885 * day_us + 12 * 3600000000)
    Sample.fromisoformat (PyStr "2024-01-01T00:00:00Z") = Ok 0.
Proof.
  refine (proj1 (proj2 (X5_days_since_of_timestamp _ Sample.fromisoformat
                          (PyStr "2024-01-01T00:00:00Z") Sample.new_year _)) _).
  - right. exists "2024-01-01T00:00:00Z"%string.
    split; [reflexivity|split; [discriminate|reflexivity]].
  - unfold Sample.new_year, day_us; simpl. lia.
Defined.

(** *** Start-up, health and the request handler *)

(** X6. After [load_model] a model is loaded exactly when the model file
    exists and unpickles and the scaler file, if it exists, unpickles too
    (a corrupt scaler file discards a good model); a scaler is loaded
    exactly when its file exists and unpickles and the model file, if it
    exists, unpickles (a missing model file does not stop the scaler from
    being loaded). What is loaded is what the files hold, [/health]
    reports [model_loaded] accordingly, and an error line is printed
    exactly when a file fails to unpickle, in which case both globals are
    reset. *)
Theorem X6_load_model_outcome (disk : Disk) :
  let st := fst (load_model disk) in
  let printed := snd (load_model disk) in
  (forall m, model st = Some m <->
             model_pkl disk = Some (Ok m) /\
             forall e, scaler_pkl disk <> Some (Raise e)) /\
  (forall s, scaler st = Some s <->
             scaler_pkl disk = Some (Ok s) /\
             forall e, model_pkl disk <> Some (Raise e)) /\
  (model_loaded (health st) = true <-> is_Some (model st)) /\
  (forall e, In (ErrorLoading e) printed <->
             model_pkl disk = Some (Raise e) \/
             (scaler_pkl disk = Some (Raise e) /\
              forall e', model_pkl disk <> Some (Raise e'))) /\
  ((exists e, In (ErrorLoading e) printed) ->
   model st = None /\ scaler st = None) /\
  (In ModelNotFound printed <-> model_pkl disk = None).
Proof.
  unfold load_model, health.
  destruct disk as [[[m0|e0]|] [[s0|e1]|]]; simpl.
  all: repeat split; intros;
    repeat match goal with
    | H : _ /\ _ |- _ => destruct H
    | H : _ \/ _ |- _ => destruct H
    | H : exists _, _ |- _ => destruct H
    | H : is_Some _ |- _ => destruct H
    | H : forall e, Some (Raise _) <> Some (Raise e) |- _ =>
        exfalso; eapply H; reflexivity
    | H : forall e, _ <> Some (Raise e) |- _ => clear H
    end;
    try congruence; try tauto; eauto.
  all: try (left; congruence).
  all: try (right; split; [congruence | intros; congruence]).
  all: right; left; congruence.
Qed.

(** A good model beside a corrupt scaler: nothing is loaded. *)
Lemma X6_load_model_witness :
  model (fst (load_model Fixture.corrupt_scaler_disk)) = None /\
  scaler (fst (load_model Fixture.corrupt_scaler_disk)) = None.
Proof.
  apply (proj1 (proj2 (proj2 (proj2 (proj2
           (X6_load_model_outcome Fixture.corrupt_scaler_disk)))))).
  exists ValueError. simpl. now left.
Defined.

(** X7. In every 200 response the two provenance fields go together and
    follow the truth test of the loaded model: ("trained", 0.85) when a
    model is loaded and its truth value is true, ("fallback", 0.70) when
    none is loaded or its truth value is false. [/health] tests only
    that a model is loaded, so "trained" implies [model_loaded], but not
    conversely: with a loaded object whose truth value is false (and no
    scaler), [/health] reports a loaded model while every request whose
    donation rate is a float gets the heuristic score, labelled
    "fallback" with confidence 0.70. *)
Theorem X7_labels_follow_truth_test (now : Z)
    (fromisoformat : string -> result datetime) :
  (forall (st : Artifacts) (data : DonorData) (body : Prediction),
      predict now fromisoformat st (Ok (JsonObject data)) = Http200 body ->
      (model_used body = "trained"%string /\ confidence body = 0.85%Q /\
       model_loaded (health st) = true /\
       exists m, model st = Some m /\ model_truth m = Ok true) \/
      (model_used body = "fallback"%string /\ confidence body = 0.70%Q /\
       (model st = None \/
        exists m, model st = Some m /\ model_truth m = Ok false))) /\
  (forall (m : Model) (data : DonorData) (rate : Q),
      model_truth m = Ok false ->
      donation_rate_of data = Ok rate ->
      let st := {| model := Some m; scaler := None |} in
      model_loaded (health st) = true /\
      exists daysSince : Z,
        calculate_days_since_last_donation now fromisoformat
          (lastDonationDate data) = Ok daysSince /\
        predict now fromisoformat st (Ok (JsonObject data))
        = Http200 {| success := true;
                     resp_donorId := donorId data;
                     availabilityScore :=
                       PInt (calculate_fallback_score (get (age data) 30)
                               (get (donationFrequency data) 0) daysSince);
                     confidence := 0.70;
                     model_used := "fallback" |}).
Proof.
  split.
  - intros st data body. unfold predict, health.
    destruct (predict_availability _ _ _ _); [|discriminate].
    destruct (model st) as [m|]; simpl.
    + destruct (model_truth m) as [[|]|e] eqn:Ht; [| |discriminate];
        intros [= <-]; simpl; [left|right]; repeat split; eauto.
    + intros [= <-]; simpl. right. repeat split; eauto.
  - intros m data rate Ht Hrate st. split; [reflexivity|].
    destruct (days_and_recency now fromisoformat data)
      as (n & rec & Hn & _ & Hrec & _).
    exists n. split; [exact Hn|].
    unfold predict. rewrite predict_defaults.
    unfold predict_availability.
    rewrite (chosen_score_unfold now fromisoformat st data n rec Hn Hrec), Hrate.
    unfold score_of_features; simpl. rewrite Ht; simpl. reflexivity.
Qed.

(** A loaded object whose truth value is false: reported loaded, and
    the sample donor, without a date, is scored 75 and labelled
    fallback. *)
Lemma X7_labels_witness :
  model_loaded (health {| model := Some Fixture.falsy_model; scaler := None |})
  = true /\
  predict Sample.now Sample.fromisoformat
    {| model := Some Fixture.falsy_model; scaler := None |}
    (Ok (JsonObject (Sample.donor PyNone)))
  = Http200 {| success := true;
               resp_donorId := PyStr "d-1";
               availabilityScore := PInt 75;
               confidence := 0.70;
               model_used := "fallback" |}.
Proof.
  destruct (truediv_small 5 (Z.max (30 - 18) 1)) as (rate & Hrate); [lia|lia|].
  destruct (proj2 (X7_labels_follow_truth_test Sample.now Sample.fromisoformat)
              Fixture.falsy_model (Sample.donor PyNone) rate eq_refl Hrate)
    as (Hloaded & n & Hn & Hp).
  split; [exact Hloaded|]. rewrite Hp.
  injection Hn as <-. reflexivity.
Defined.

Lemma score_of_features_raises (st : Artifacts) (features : ndarray)
    (age f n : Z) :
  (exists e, score_of_features st features age f n = Raise e) <->
  (exists s e, scaler st = Some s /\ scaler_truth s = Raise e) \/
  (exists s e, scaler st = Some s /\ scaler_truth s = Ok true /\
               transform s features = Raise e) \/
  (exists m e, model st = Some m /\ model_truth m = Raise e).
Proof.
  unfold score_of_features.
  destruct (scaler st) as [s|] eqn:Hs;
    [destruct (scaler_truth s) as [[|]|es] eqn:Hst;
     [destruct (transform s features) as [scaled|et] eqn:Htr| |]|];
    cbn [bind];
    try (destruct (model st) as [m|] eqn:Hm;
         [destruct (model_truth m) as [[|]|em] eqn:Hmt; cbn [bind];
          try destruct (model_score m _); cbn [try_except]|]).
  all: split;
    [ intros [e0 He]; try discriminate He;
      first [ left; solve [eauto 10]
            | right; left; solve [eauto 10]
            | right; right; solve [eauto 10] ]
    | intros Hc; try solve [eauto];
      exfalso; decompose [or ex and] Hc; simplify_eq; congruence ].
Qed.

(** X8. What the handler answers. When [request.json] raises, the answer
    is 500 with that error; a body whose truth value is false gets 400; a
    body that is true but not an object gets 500. For an object whose
    fields have the types of the data model the answer is 500 exactly
    when the donation rate overflows, the truth test of the scaler
    raises, the scaler is true and its [transform] raises on the feature
    array, or the truth test of the model raises; otherwise it is 200
    with [success] true, the request's [donorId] echoed and the score
    [predict_availability] gives for the request as sent. *)
Theorem X8_handler_status (now : Z)
    (fromisoformat : string -> result datetime) (st : Artifacts) :
  (forall e, predict now fromisoformat st (Raise e) = Http500 e) /\
  predict now fromisoformat st (Ok JsonFalsy) = Http400 "No data provided" /\
  predict now fromisoformat st (Ok JsonNotObject) = Http500 AttributeError /\
  forall data : DonorData,
  exists (daysSince : Z) (recencyScore : Q),
    calculate_days_since_last_donation now fromisoformat (lastDonationDate data)
      = Ok daysSince /\
    truediv (Z.max 0 (90 - daysSince)) 90 = Ok recencyScore /\
    match predict_availability now fromisoformat st data with
    | Raise e => predict now fromisoformat st (Ok (JsonObject data)) = Http500 e
    | Ok score =>
        exists body,
          predict now fromisoformat st (Ok (JsonObject data)) = Http200 body /\
          success body = true /\ resp_donorId body = donorId data /\
          availabilityScore body = score
    end /\
    ((exists e, predict now fromisoformat st (Ok (JsonObject data)) = Http500 e)
     <->
     donation_rate_of data = Raise OverflowError \/
     exists rate,
       donation_rate_of data = Ok rate /\
       ((exists s e, scaler st = Some s /\ scaler_truth s = Raise e) \/
        (exists s e, scaler st = Some s /\ scaler_truth s = Ok true /\
                     transform s [feature_row data daysSince rate recencyScore]
                     = Raise e) \/
        (exists m e, model st = Some m /\ model_truth m = Raise e))).
Proof.
  split; [reflexivity|]. split; [reflexivity|]. split; [reflexivity|].
  intros data.
  destruct (days_and_recency now fromisoformat data)
    as (n & rec & Hn & _ & Hrec & _).
  exists n, rec. split; [exact Hn|]. split; [exact Hrec|].
  assert (Hlabel : forall c,
             score_of_features st [feature_row data n
                                     match donation_rate_of data with
                                     | Ok rate => rate
                                     | Raise _ => 0%Q
                                     end rec]
               (get (age data) 30) (get (donationFrequency data) 0) n = Ok c ->
             exists b, match model st with
                       | Some m => model_truth m
                       | None => Ok false
                       end = Ok b).
  { intros c. unfold score_of_features.
    destruct (match scaler st with Some _ => _ | None => _ end); [|discriminate].
    cbn [bind]. destruct (model st) as [m|]; [|eauto].
    destruct (model_truth m); [eauto|discriminate]. }
  assert (Hrounds : donation_rate_of data = Raise OverflowError \/
                    exists rate, donation_rate_of data = Ok rate).
  { unfold donation_rate_of. rewrite truediv_rounds by lia.
    destruct (binary64 _); eauto. }
  unfold predict. rewrite predict_defaults. unfold predict_availability.
  rewrite (chosen_score_unfold now fromisoformat st data n rec Hn Hrec).
  destruct Hrounds as [Hov|(rate & Hrate)].
  { rewrite Hov; simpl. split; [reflexivity|]. split; [now left | eauto]. }
  rewrite Hrate in *; cbn [bind].
  pose proof (score_of_features_raises st [feature_row data n rate rec]
                (get (age data) 30) (get (donationFrequency data) 0) n) as Hraises.
  destruct (score_of_features st _ _ _ _) as [c|e] eqn:Hscore; cbn [bind].
  - destruct (Hlabel c eq_refl) as (b & ->).
    split; [eexists; repeat split|].
    split.
    + intros [e He]. discriminate He.
    + intros [Hov|(rate' & Hr' & Hcause)]; [discriminate Hov|].
      injection Hr' as <-.
      apply Hraises in Hcause. destruct Hcause as [e He]. discriminate He.
  - split; [reflexivity|]. split; [|eauto].
    intros _. right. exists rate. split; [reflexivity|].
    apply Hraises. eauto.
Qed.

(** A model that was never fitted: its truth test raises, outside the
    [try], and the request is answered 500. *)
Lemma X8_handler_witness :
  predict Sample.now Sample.fromisoformat
    {| model := Some Fixture.unfitted_model; scaler := None |}
    (Ok (JsonObject (Sample.donor PyNone)))
  = Http500 AttributeError.
Proof.
  destruct (X8_handler_status Sample.now Sample.fromisoformat
              {| model := Some Fixture.unfitted_model; scaler := None |})
    as (_ & _ & _ & H).
  destruct (H (Sample.donor PyNone)) as (n & rec & _ & _ & Hanswer & _).
  assert (Hp : predict_availability Sample.now Sample.fromisoformat
                 {| model := Some Fixture.unfitted_model; scaler := None |}
                 (Sample.donor PyNone) = Raise AttributeError)
    by (vm_compute; reflexivity).
  rewrite Hp in Hanswer. exact Hanswer.
Defined.

(** The donation rate of a record either overflows or is a float; it is
    a float whenever the frequency is below 2^53 in size. *)
Lemma donation_rate_cases (d : DonorData) :
  donation_rate_of d = Raise OverflowError \/
  exists rate, donation_rate_of d = Ok rate.
Proof.
  unfold donation_rate_of. rewrite truediv_rounds by lia.
  destruct (binary64 _); eauto.
Qed.

Lemma donation_rate_small (d : DonorData) :
  - 2 ^ 53 < get (donationFrequency d) 0 < 2 ^ 53 ->
  exists rate, donation_rate_of d = Ok rate.
Proof. intros H. apply truediv_small; lia. Qed.

(** X9. With neither pickle on disk, a request object whose fields have
    the types of the data model is answered 200 with the heuristic score,
    an integer between 50 and 100, labelled "fallback" with confidence
    0.70, unless its donation rate is too large for a float: then the
    [OverflowError] of the division is answered 500. A frequency below
    2^53 in size never overflows. *)
Theorem X9_no_artifacts_response (now : Z)
    (fromisoformat : string -> result datetime) (disk : Disk)
    (data : DonorData) :
  model_pkl disk = None -> scaler_pkl disk = None ->
  exists daysSince score : Z,
    calculate_days_since_last_donation now fromisoformat (lastDonationDate data)
      = Ok daysSince /\
    score = calculate_fallback_score (get (age data) 30)
              (get (donationFrequency data) 0) daysSince /\
    50 <= score <= 100 /\
    (predict now fromisoformat (fst (load_model disk)) (Ok (JsonObject data))
     = Http500 OverflowError \/
     predict now fromisoformat (fst (load_model disk)) (Ok (JsonObject data))
     = Http200 {| success := true;
                  resp_donorId := donorId data;
                  availabilityScore := PInt score;
                  confidence := 0.70;
                  model_used := "fallback" |}) /\
    (predict now fromisoformat (fst (load_model disk)) (Ok (JsonObject data))
     = Http500 OverflowError <-> donation_rate_of data = Raise OverflowError) /\
    (- 2 ^ 53 < get (donationFrequency data) 0 < 2 ^ 53 ->
     predict now fromisoformat (fst (load_model disk)) (Ok (JsonObject data))
     = Http200 {| success := true;
                  resp_donorId := donorId data;
                  availabilityScore := PInt score;
                  confidence := 0.70;
                  model_used := "fallback" |}).
Proof.
  intros Hm Hs. unfold load_model. rewrite Hm, Hs; cbn [fst].
  destruct (days_since_total now fromisoformat (lastDonationDate data))
    as (n & Hn & _).
  exists n, (calculate_fallback_score (get (age data) 30)
               (get (donationFrequency data) 0) n).
  split; [exact Hn|]. split; [reflexivity|].
  split; [rewrite fallback_score_points; apply fallback_points_range|].
  assert (Hp : predict now fromisoformat {| model := None; scaler := None |}
                 (Ok (JsonObject data))
               = match donation_rate_of data with
                 | Ok _ =>
                     Http200 {| success := true;
                                resp_donorId := donorId data;
                                availabilityScore :=
                                  PInt (calculate_fallback_score
                                          (get (age data) 30)
                                          (get (donationFrequency data) 0) n);
                                confidence := 0.70;
                                model_used := "fallback" |}
                 | Raise e => Http500 e
                 end).
  { unfold predict. rewrite predict_defaults.
    rewrite (heuristic_path now fromisoformat
               {| model := None; scaler := None |} data n eq_refl I Hn).
    now destruct (donation_rate_of data). }
  rewrite Hp.
  destruct (donation_rate_cases data) as [Hov|(rate & Hrate)].
  - rewrite Hov. split; [now left|]. split; [tauto|].
    intros Hf. destruct (donation_rate_small data Hf) as (rate & Hrate).
    congruence.
  - rewrite Hrate. split; [now right|]. split; [|reflexivity].
    split; discriminate.
Qed.

Lemma X9_no_artifacts_witness :
  exists score : Z,
    50 <= score <= 100 /\
    predict Sample.now Sample.fromisoformat
      (fst (load_model Fixture.empty_disk))
      (Ok (JsonObject (Sample.donor PyNone)))
    = Http200 {| success := true;
                 resp_donorId := PyStr "d-1";
                 availabilityScore := PInt score;
                 confidence := 0.70;
                 model_used := "fallback" |}.
Proof.
  destruct (X9_no_artifacts_response Sample.now Sample.fromisoformat
              Fixture.empty_disk (Sample.donor PyNone) eq_refl eq_refl)
    as (n & score & _ & _ & Hrange & _ & _ & Hp).
  exists score. split; [exact Hrange|]. apply Hp. simpl. lia.
Defined.

(** X10. Without a model the score depends on the age, the donation
    frequency and the last donation date only: two requests that differ
    in region, health flags or donor id get the same score. *)
Theorem X10_heuristic_ignores_region_and_flags (now : Z)
    (fromisoformat : string -> result datetime) (st : Artifacts)
    (d1 d2 : DonorData) :
  model st = None -> scaler_total st ->
  get (age d1) 30 = get (age d2) 30 ->
  get (donationFrequency d1) 0 = get (donationFrequency d2) 0 ->
  lastDonationDate d1 = lastDonationDate d2 ->
  predict_availability now fromisoformat st d1
  = predict_availability now fromisoformat st d2.
Proof.
  intros Hm Hs Ha Hf Hl.
  destruct (days_since_total now fromisoformat (lastDonationDate d1))
    as (n & Hn & _).
  rewrite (heuristic_path now fromisoformat st d1 n Hm Hs Hn).
  rewrite Hl in Hn.
  rewrite (heuristic_path now fromisoformat st d2 n Hm Hs Hn).
  unfold donation_rate_of. now rewrite Ha, Hf.
Qed.

Lemma X10_heuristic_ignores_witness :
  predict_availability Sample.now Sample.fromisoformat
    {| model := None; scaler := Some Sample.identity_scaler |}
    (Sample.donor PyNone)
  = predict_availability Sample.now Sample.fromisoformat
      {| model := None; scaler := Some Sample.identity_scaler |}
      {| age := Some 30; donationFrequency := Some 5;
         lastDonationDate := PyNone; region := Some "NORTH"%string;
         healthFlags := Some [PyStr "anemia"; PyStr "flu"];
         donorId := PyInt 7 |}.
Proof.
  apply X10_heuristic_ignores_region_and_flags; try reflexivity.
  right. split; [reflexivity|]. intros features. now exists features.
Defined.

(** X11. Without a model, and with a scaler (if one is loaded) that does
    not raise, a donor with no usable last donation date (the field
    absent, null or empty, of an unsupported type, or a string that does
    not parse) is scored as 365 days: 45 plus the age and frequency
    points, so never above 80. The one other outcome is the
    [OverflowError] of a donation rate too large for a float, which a
    frequency below 2^53 in size never gives. *)
Theorem X11_no_date_caps_score (now : Z)
    (fromisoformat : string -> result datetime) (st : Artifacts)
    (d : DonorData) :
  model st = None -> scaler_total st ->
  truthy (lastDonationDate d) = false \/
  ((forall s, lastDonationDate d <> PyStr s) /\
   (forall t, lastDonationDate d <> PyDatetime t)) \/
  (exists s e, lastDonationDate d = PyStr s /\
               fromisoformat (replace_char "Z" "+00:00" s) = Raise e) ->
  exists score : Z,
    score = 45 + Table.age_adjustment (get (age d) 30)
               + Table.frequency_adjustment (get (donationFrequency d) 0) /\
    50 <= score <= 80 /\
    predict_availability now fromisoformat st d
    = match donation_rate_of d with
      | Ok _ => Ok (PInt score)
      | Raise _ => Raise OverflowError
      end /\
    (- 2 ^ 53 < get (donationFrequency d) 0 < 2 ^ 53 ->
     predict_availability now fromisoformat st d = Ok (PInt score)).
Proof.
  intros Hm Hs Hd.
  assert (Hn : calculate_days_since_last_donation now fromisoformat
                 (lastDonationDate d) = Ok 365).
  { destruct Hd as [H|[(H1 & H2)|(s & e & Hv & He)]].
    - now apply days_since_falsy.
    - now apply days_since_unsupported.
    - rewrite Hv. destruct (String.eqb_spec s "") as [->|Hne]; [reflexivity|].
      now rewrite days_since_str, He. }
  exists (calculate_fallback_score (get (age d) 30)
            (get (donationFrequency d) 0) 365).
  assert (Hscore : calculate_fallback_score (get (age d) 30)
                     (get (donationFrequency d) 0) 365
                   = 45 + Table.age_adjustment (get (age d) 30)
                     + Table.frequency_adjustment (get (donationFrequency d) 0)
                   /\ 50 <= calculate_fallback_score (get (age d) 30)
                              (get (donationFrequency d) 0) 365 <= 80).
  { rewrite fallback_score_points, fallback_points_table.
    change (Table.recency_adjustment 365) with (-5).
    pose proof (age_adjustment_range (get (age d) 30)).
    pose proof (frequency_adjustment_range (get (donationFrequency d) 0)).
    lia. }
  split; [apply Hscore|]. split; [apply Hscore|].
  rewrite (heuristic_path now fromisoformat st d 365 Hm Hs Hn).
  split.
  - destruct (donation_rate_cases d) as [->|(rate & ->)]; reflexivity.
  - intros Hf. now destruct (donation_rate_small d Hf) as (rate & ->).
Qed.

(** The best donor without a date: 45 + 15 + 20. *)
Lemma X11_no_date_witness :
  predict_availability Sample.now Sample.fromisoformat
    {| model := None; scaler := None |}
    {| age := Some 30; donationFrequency := Some 12;
       lastDonationDate := PyStr "last spring"; region := None;
       healthFlags := None; donorId := PyNone |}
  = Ok (PInt 80).
Proof.
  destruct (X11_no_date_caps_score Sample.now Sample.fromisoformat
              {| model := None; scaler := None |}
              {| age := Some 30; donationFrequency := Some 12;
                 lastDonationDate := PyStr "last spring"; region := None;
                 healthFlags := None; donorId := PyNone |}
              eq_refl I
              (or_intror (or_intror
                 (ex_intro _ "last spring"%string
                    (ex_intro _ ValueError (conj eq_refl eq_refl))))))
    as (score & Hv & _ & _ & Hp).
  rewrite Hp, Hv; [reflexivity|]. simpl. lia.
Defined.

(** X12. Of the array the model returns only the first entry is used, and
    it is clamped: a prediction of 1 or more (or plus infinity) scores
    100, one of 0 or less (or minus infinity) scores 0, and a NaN
    prediction scores 100. For a prediction strictly between 0 and 1 the
    score is its float product with 100, a float of [0,100] within 2^-47
    of a hundred times the prediction; should the product round to 0 or
    to 100, the score is that integer. *)
Theorem X12_model_output_clamped (m : Model) (features : ndarray)
    (x : pyfloat) (rest : list pyfloat) :
  predict_ m features = Ok (x :: rest) ->
  match x with
  | FNaN => model_score m features = Ok (PInt 100)
  | FInf negative =>
      model_score m features = Ok (PInt (if negative then 0 else 100))
  | FFin p =>
      ((p <= 0)%Q -> model_score m features = Ok (PInt 0)) /\
      ((1 <= p)%Q -> model_score m features = Ok (PInt 100)) /\
      ((0 < p < 1)%Q ->
       exists a : Q,
         float_mul_int (FFin p) 100 = FFin a /\ (0 <= a <= 100)%Q /\
         (a - pow2 (-47) <= p * 100 <= a + pow2 (-47))%Q /\
         model_score m features =
         Ok (if Qle_bool 100 a then PInt 100
             else if Qle_bool a 0 then PInt 0
             else PFlt (FFin a)))
  end.
Proof.
  intros Hp. unfold model_score. rewrite Hp; simpl.
  destruct x as [ | [|] | p]; try reflexivity.
  change (float_mul_int (FFin p) 100) with (binary64 (p * inject_Z 100)).
  change (inject_Z 100) with 100%Q.
  split; [|split].
  - intros H.
    destruct (binary64_nonpos (p * 100)) as [->|(r & -> & Hr)];
      [lra|reflexivity|].
    rewrite clamp_finite.
    change (inject_Z 100) with 100%Q. change (inject_Z 0) with 0%Q.
    rewrite Qle_bool_false by lra.
    apply Qle_bool_iff in Hr. now rewrite Hr.
  - intros H.
    destruct (binary64_ge (p * 100) 100) as [->|(r & -> & Hr)];
      [change (inject_Z 100) with 100%Q; lra|lia|reflexivity|].
    rewrite clamp_finite. apply Qle_bool_iff in Hr. now rewrite Hr.
  - intros H.
    destruct (binary64_range (p * 100) 100) as (a & Hr & Ha);
      [change (inject_Z 100) with 100%Q; lra|lia|].
    rewrite Hr.
    exists a. split; [reflexivity|]. split; [exact Ha|].
    split; [|now rewrite clamp_finite].
    apply (binary64_error (p * 100) a 7 Hr); [|lia].
    change (inject_Z 100) with 100%Q in Ha.
    change (pow2 7) with 128%Q. lra.
Qed.

(** A NaN prediction becomes the top score. *)
Lemma X12_model_output_witness :
  model_score (Fixture.model_of FNaN) [] = Ok (PInt 100).
Proof.
  apply (X12_model_output_clamped (Fixture.model_of FNaN) [] FNaN []).
  reflexivity.
Defined.

(** X13. When a model is loaded whose truth value is true and whose
    [predict], whatever the array, raises or returns an empty array,
    every request whose donation rate is a float still gets the heuristic
    score, provided the scaler, if one is loaded, does not raise. (The
    truth test of the model stands outside the [try]: a model whose
    truth test raises fails the request.) *)
Theorem X13_model_failure_falls_back (now : Z)
    (fromisoformat : string -> result datetime) (st : Artifacts) (m : Model)
    (d : DonorData) :
  model st = Some m -> model_truth m = Ok true -> scaler_total st ->
  (forall features,
      (exists e, predict_ m features = Raise e) \/ predict_ m features = Ok []) ->
  exists daysSince : Z,
    calculate_days_since_last_donation now fromisoformat (lastDonationDate d)
      = Ok daysSince /\
    predict_availability now fromisoformat st d
    = match donation_rate_of d with
      | Ok _ => Ok (PInt (calculate_fallback_score (get (age d) 30)
                            (get (donationFrequency d) 0) daysSince))
      | Raise _ => Raise OverflowError
      end /\
    (- 2 ^ 53 < get (donationFrequency d) 0 < 2 ^ 53 ->
     predict_availability now fromisoformat st d
     = Ok (PInt (calculate_fallback_score (get (age d) 30)
                   (get (donationFrequency d) 0) daysSince))).
Proof.
  intros Hm Ht Hs Hfail.
  destruct (days_and_recency now fromisoformat d)
    as (n & rec & Hn & _ & Hrec & _).
  exists n. split; [exact Hn|].
  assert (Hp : predict_availability now fromisoformat st d
               = match donation_rate_of d with
                 | Ok _ => Ok (PInt (calculate_fallback_score (get (age d) 30)
                                       (get (donationFrequency d) 0) n))
                 | Raise e => Raise e
                 end).
  { unfold predict_availability.
    rewrite (chosen_score_unfold now fromisoformat st d n rec Hn Hrec).
    destruct (donation_rate_of d) as [rate|e]; [|reflexivity].
    cbn [bind].
    now rewrite (failed_model_score_of_features st m _ _ _ _ Hm Hs Ht Hfail). }
  rewrite Hp. split.
  - destruct (donation_rate_cases d) as [->|(rate & ->)]; reflexivity.
  - intros Hf. now destruct (donation_rate_small d Hf) as (rate & ->).
Qed.

(** A model that returns an empty array, behind the identity scaler. *)
Lemma X13_model_failure_witness :
  predict_availability Sample.now Sample.fromisoformat
    {| model := Some Fixture.empty_model;
       scaler := Some Sample.identity_scaler |}
    (Sample.donor PyNone)
  = Ok (PInt 75).
Proof.
  destruct (X13_model_failure_falls_back Sample.now Sample.fromisoformat
              {| model := Some Fixture.empty_model;
                 scaler := Some Sample.identity_scaler |}
              Fixture.empty_model (Sample.donor PyNone) eq_refl eq_refl
              (or_intror (conj eq_refl
                 (fun features => ex_intro _ features eq_refl)))
              (fun features => or_intror eq_refl))
    as (n & Hn & _ & Hp).
  rewrite Hp; [|simpl; lia]. simpl in Hn. injection Hn as <-. reflexivity.
Defined.

(** *** Training data against the service *)

Lemma training_sample_value (dr : Training.Draw) (region_factor rate rec : Q) :
  Training.region_map !! Training.region dr = Some region_factor ->
  truediv (Training.donation_frequency dr) (Z.max (Training.age dr - 18) 1)
    = Ok rate ->
  truediv (Z.max 0 (90 - Training.days_ago dr)) 90 = Ok rec ->
  Training.sample dr =
  Some [ ("age", PInt (Training.age dr));
         ("donation_frequency", PInt (Training.donation_frequency dr));
         ("days_since_last_donation", PInt (Training.days_ago dr));
         ("region_factor", PFlt (FFin region_factor));
         ("health_flags_count", PInt (Training.health_flags_count dr));
         ("donation_rate", PFlt (FFin rate));
         ("recency_score", PFlt (FFin rec));
         ("availability_score",
          PFlt (Training.div_int
                  (py_max (PInt 0)
                     (py_min (PInt 100)
                        (PFlt (Training.target_points dr)))) 100)) ]%string.
Proof.
  intros Hr Hrate Hrec. unfold Training.sample. rewrite Hr.
  cbn [mbind option_bind]. rewrite Hrate.
  cbn [mbind option_bind Training.of_result]. rewrite Hrec.
  reflexivity.
Qed.

Lemma training_region_factor (r : string) :
  In r known_regions ->
  Training.region_map !! r = Some (region_factor_of r).
Proof.
  simpl. intros H.
  repeat (destruct H as [<-|H]; [reflexivity|]). contradiction.
Qed.

Lemma training_sample_features (dr : Training.Draw) :
  Training.in_range dr ->
  exists row x,
    Training.sample dr = Some row /\
    Training.values Training.feature_cols row = Some x /\
    length x = 7%nat /\
    features_of (Training.age dr) (Training.donation_frequency dr)
      (Training.days_ago dr) (region_factor_of (Training.region dr))
      (Training.health_flags_count dr) = Ok [x].
Proof.
  intros (_ & Hf & Hd & Hr & _).
  destruct (truediv_small (Training.donation_frequency dr)
              (Z.max (Training.age dr - 18) 1)) as (rate & Hrate); [lia|lia|].
  destruct (recency_division (Training.days_ago dr)) as (rec & Hrec & _);
    [lia|].
  eexists _, _.
  split; [exact (training_sample_value dr _ rate rec
                   (training_region_factor _ Hr) Hrate Hrec)|].
  split; [reflexivity|].
  split; [reflexivity|].
  unfold features_of. rewrite Hrate; cbn [bind]. rewrite Hrec. reflexivity.
Qed.

(** The clamped target, divided by 100, is a float of [0,1]. *)
Lemma training_target_unit (x : pyfloat) :
  exists y : Q,
    Training.div_int (py_max (PInt 0) (py_min (PInt 100) (PFlt x))) 100
    = FFin y /\ (0 <= y <= 1)%Q.
Proof.
  pose proof (clamp_in_0_100 x) as H. unfold in_0_100 in H.
  unfold Training.div_int.
  destruct (to_float _) as [ | | q]; try contradiction.
  destruct (binary64_range (q / inject_Z 100) 1) as (y & Hy & Hrange);
    [|lia|now exists y].
  change (inject_Z 100) with 100%Q. change (inject_Z 1) with 1%Q. split.
  - apply Qle_shift_div_l; [reflexivity|]. lra.
  - apply Qle_shift_div_r; [reflexivity|]. lra.
Qed.

(** X14. Training and serving build the same feature vector: for every
    sample [generate_synthetic_data] can draw, the row is produced (no
    [KeyError], no division by zero) and its columns, taken in the order
    of [feature_cols], are exactly the array [predict_availability]
    builds for a donor with the same age, frequency, day count, region
    and number of health flags. *)
Theorem X14_training_features_match_serving (dr : Training.Draw) :
  Training.in_range dr ->
  exists row x,
    Training.sample dr = Some row /\
    Training.values Training.feature_cols row = Some x /\
    length x = 7%nat /\
    features_of (Training.age dr) (Training.donation_frequency dr)
      (Training.days_ago dr) (region_factor_of (Training.region dr))
      (Training.health_flags_count dr) = Ok [x].
Proof. apply training_sample_features. Qed.

Lemma X14_training_features_witness :
  exists row x,
    Training.sample Fixture.draw = Some row /\
    Training.values Training.feature_cols row = Some x /\
    length x = 7%nat /\
    features_of 30 5 75 (region_factor_of "south") 1 = Ok [x].
Proof.
  apply (X14_training_features_match_serving Fixture.draw).
  unfold Training.in_range; simpl. repeat split; try lia. tauto.
Defined.

(** X15. The training target [availability_score] of every sample lies in
    [0,1], whatever the noise drawn: the range the service assumes when
    it multiplies a prediction by 100. *)
Theorem X15_training_target_in_unit_interval (dr : Training.Draw)
    (row : list (string * pynum)) :
  Training.sample dr = Some row ->
  exists y : Q,
    Training.lookup_key "availability_score" row = Some (PFlt (FFin y)) /\
    (0 <= y <= 1)%Q.
Proof.
  unfold Training.sample.
  destruct (Training.region_map !! Training.region dr) as [rf|];
    [|discriminate].
  cbn [mbind option_bind].
  destruct (truediv (Training.donation_frequency dr) _) as [rate|];
    [|discriminate].
  cbn [mbind option_bind Training.of_result].
  destruct (truediv (Z.max 0 _) 90) as [rec|]; [|discriminate].
  cbn [mbind option_bind Training.of_result].
  intros [= <-].
  cbn [Training.lookup_key String.eqb Ascii.eqb Bool.eqb].
  destruct (training_target_unit (Training.target_points dr)) as (y & -> & Hy).
  now exists y.
Qed.

(** Fifty points of noise on top of a good donor: the target is 1. *)
Lemma X15_training_target_witness :
  exists y : Q,
    Training.lookup_key "availability_score"
      [ ("age", PInt 30); ("donation_frequency", PInt 12);
        ("days_since_last_donation", PInt 60);
        ("region_factor", PFlt (FFin 0.3));
        ("health_flags_count", PInt 0);
        ("donation_rate", PFlt (binary64 1));
        ("recency_score", PFlt (binary64 (1 # 3)));
        ("availability_score", PFlt (binary64 1)) ]%string
    = Some (PFlt (FFin y)) /\ (0 <= y <= 1)%Q.
Proof.
  apply (X15_training_target_in_unit_interval
           {| Training.age := 30; Training.donation_frequency := 12;
              Training.days_ago := 60; Training.region := "south";
              Training.health_flags_count := 0; Training.noise := 50 |}).
  vm_compute. reflexivity.
Defined.

Lemma training_age_chain (score age : Z) :
  (if (25 <=? age) && (age <=? 45) then score + 15
   else if ((18 <=? age) && (age <? 25)) || ((45 <? age) && (age <=? 60))
   then score + 10
   else score)
  = score + Table.age_adjustment age
    - (if (age <? 18) || (60 <? age) then 5 else 0).
Proof.
  unfold Table.age_adjustment, Table.age_rows, Table.age_otherwise,
    Table.first_match, Table.in_band; simpl.
  band_cases.
Qed.

Lemma training_frequency_chain (score f : Z) :
  (if f >=? 10 then score + 20
   else if f >=? 5 then score + 15
   else if f >=? 2 then score + 10
   else score)
  = score + Table.frequency_adjustment f - (if f =? 1 then 5 else 0).
Proof.
  unfold Table.frequency_adjustment, Table.frequency_rows, Table.first_match,
    Table.in_band; simpl.
  destruct (Z.eqb_spec f 1) as [->|Hf]; [change (score = score + 5 - 5); lia|].
  band_cases.
Qed.

Lemma training_recency_chain (score d : Z) :
  (if (56 <=? d) && (d <=? 90) then score + 15
   else if (30 <=? d) && (d <? 56) then score + 10
   else if (90 <? d) && (d <=? 180) then score + 5
   else score)
  = score + Table.recency_adjustment d + (if 180 <? d then 5 else 0).
Proof.
  unfold Table.recency_adjustment, Table.recency_rows, Table.first_match,
    Table.in_band; simpl.
  band_cases.
Qed.

(** X16. The rule that labels the training data is not the heuristic of
    the service. Before clamping, the training target is the float
    nearest to: the heuristic points of the same age, frequency and day
    count, less the 5 points the heuristic gives an age outside 18-60,
    less the 5 it gives a single donation, plus the 5 it takes for more
    than 180 days, plus the region score, less 5 per health flag, plus
    the noise. *)
Theorem X16_training_target_against_heuristic (dr : Training.Draw) :
  let age := Training.age dr in
  let f := Training.donation_frequency dr in
  let d := Training.days_ago dr in
  Training.target_points dr =
  binary64
    (Qplus
       (inject_Z (fallback_points age f d
                  - (if (age <? 18) || (60 <? age) then 5 else 0)
                  - (if f =? 1 then 5 else 0)
                  + (if 180 <? d then 5 else 0)
                  + default 3 (Training.region_scores !! Training.region dr)
                  - Training.health_flags_count dr * 5))
       (Training.noise dr)).
Proof.
  cbv zeta. unfold Training.target_points; cbv zeta.
  rewrite training_recency_chain, training_frequency_chain, training_age_chain.
  rewrite fallback_points_table.
  f_equal. f_equal. f_equal. lia.
Qed.

(** X17. [generate_synthetic_data] returns one row per sample drawn, and
    raises on none, when every draw is in the ranges of its random
    calls. *)
Theorem X17_generate_synthetic_data_total (draws : list Training.Draw) :
  Forall Training.in_range draws ->
  exists data,
    Training.generate_synthetic_data draws = Some data /\
    length data = length draws /\
    Forall (fun row => exists x, Training.values Training.feature_cols row = Some x
                                 /\ length x = 7%nat) data.
Proof.
  unfold Training.generate_synthetic_data.
  induction 1 as [|dr draws Hdr _ (data & Hdata & Hlen & Hrows)].
  - exists []. repeat split. constructor.
  - destruct (training_sample_features dr Hdr) as (row & x & Hrow & Hx & H7 & _).
    exists (row :: data). simpl. rewrite Hrow; simpl. rewrite Hdata; simpl.
    repeat split; [now rewrite Hlen|].
    constructor; [now exists x | exact Hrows].
Qed.

Lemma X17_generate_synthetic_data_witness :
  exists data,
    Training.generate_synthetic_data [Fixture.draw; Fixture.draw] = Some data /\
    length data = 2%nat /\
    Forall (fun row => exists x, Training.values Training.feature_cols row = Some x
                                 /\ length x = 7%nat) data.
Proof.
  apply (X17_generate_synthetic_data_total [Fixture.draw; Fixture.draw]).
  assert (H : Training.in_range Fixture.draw).
  { unfold Training.in_range; simpl. repeat split; try lia. tauto. }
  constructor; [exact H|]. constructor; [exact H|]. constructor.
Defined.
